(** * Consensus AI: the deliberation script of [app.py], embedded in Rocq

    The analysis part of [app.py] (the body of [if analyze_button:]) drives
    the configured AIs through an initial answer, an optional round-robin
    review and revision, and a final synthesis.  This file embeds that part
    as a program in a small monad over

    - the log of the calls made through [CALL_FUNCTIONS], each with what the
      call did (returned a value or raised), and
    - the list of Streamlit widgets written to the page,

    with an early exit for [st.stop()] and for an exception nobody catches.
    The spinners ([st.spinner]) leave nothing on the page and are left out.

    Python values are modelled as the script has them: a [str] is a
    [string] of UTF-8 bytes (so [x in s] is a search for a run of bytes), a
    value that may be [None] is an [option string], and a [dict] is an
    association list in insertion order whose keys are kept unique by
    [dict_set]. *)

From Stdlib Require Import String Ascii List Arith Bool Lia.
Import ListNotations.
Open Scope string_scope.

(** ** Python strings *)

Module Py.

Definition nl : string := String (ascii_of_nat 10) EmptyString.

(** The text of a triple-quoted literal whose lines are [ls]. *)
Definition lines (ls : list string) : string :=
String.concat EmptyString (map (fun l => l ++ nl) ls).

(** [needle in hay] for two [str]. *)
Fixpoint str_in (needle hay : string) : bool :=
String.prefix needle hay ||
match hay with
| EmptyString => false
| String _ rest => str_in needle rest
end.

(** Truth value of a [str] and of a [str] that may be [None]. *)
Definition nonempty (s : string) : bool :=
match s with EmptyString => false | String _ _ => true end.

Definition truthy (v : option string) : bool :=
match v with Some s => nonempty s | None => false end.

(** [v or default]. *)
Definition or_else (v : option string) (default : string) : option string :=
if truthy v then v else Some default.

(** How an f-string renders a value that may be [None]. *)
Definition fmt (v : option string) : string :=
match v with Some s => s | None => "None" end.

(** Truth value of a [list] or [dict]. *)
Definition nonempty_list {A} (l : list A) : bool :=
match l with [] => false | _ :: _ => true end.

(** [sep.join(parts)]. *)
Definition join (sep : string) (parts : list string) : string :=
String.concat sep parts.

End Py.

(** ** Python dicts: association lists in insertion order *)

Section Dict.
Context {K V : Type}.
Variable K_eq_dec : forall a b : K, {a = b} + {a <> b}.

Definition dict := list (K * V).

(** [d[k] = v]: overwrite in place, or append a new key. *)
Fixpoint dict_set (k : K) (v : V) (d : dict) : dict :=
  match d with
  | [] => [(k, v)]
  | (k', v') :: d' =>
      if K_eq_dec k' k then (k', v) :: d' else (k', v') :: dict_set k v d'
  end.

(** [d.get(k)]; [d[k]] raises [KeyError] where this is [None]. *)
Fixpoint dict_get (k : K) (d : dict) : option V :=
  match d with
  | [] => None
  | (k', v') :: d' => if K_eq_dec k' k then Some v' else dict_get k d'
  end.

(** [k in d]. *)
Definition dict_mem (k : K) (d : dict) : bool :=
  match dict_get k d with Some _ => true | None => false end.

(** [list(d.keys())]. *)
Definition keys (d : dict) : list K := map fst d.

(** [{k: v for k, v in d.items() if p(v)}]. *)
Definition dict_filter (p : V -> bool) (d : dict) : dict :=
  filter (fun kv => p (snd kv)) d.
End Dict.

Arguments dict : clear implicits.

(** ** What the script does to the outside world *)

Inductive Outcome :=
| Returned (value : option string)      (* the call returned a [str] or [None] *)
| Raised (msg : string).                (* the call raised; [msg] is [str(e)] *)

Inductive PyExn :=
| TypeError
| KeyError
| IndexError
| StreamlitAPIException.

Inductive Widget :=
| Markdown (body : option string)
| Warning (body : string)
| Error (body : string)
| Columns (n : nat)
| Expander (column : option nat) (label : string) (expanded : bool)
           (body : option string).

(** How a run of the script ends. *)
Inductive Ending :=
| Finished                 (* the last statement was executed *)
| Stopped                  (* [st.stop()] *)
| Uncaught (e : PyExn).    (* an exception left the script *)

(** One call through [CALL_FUNCTIONS], with what it did. *)
Record Call (AI : Type) := mkCall {
  callee : AI;             (* whose entry of [CALL_FUNCTIONS] is called *)
  call_key : string;
  call_prompt : string;
  outcome : Outcome
}.
Arguments mkCall {AI}.
Arguments callee {AI}.
Arguments call_key {AI}.
Arguments call_prompt {AI}.
Arguments outcome {AI}.

(** What the script finds around it.  The identities of the AIs are the
    keys of [AI_CONFIG]; the tables [AI_CONFIG], [api_keys] and
    [CALL_FUNCTIONS] have exactly these keys, so a lookup in one of them by
    an [ai_id] cannot fail. *)
Class Deployment := {
  AI : Type;
  AI_eq_dec : forall a b : AI, {a = b} + {a <> b};
  config_name : AI -> string;         (* [AI_CONFIG[ai_id]['name']] *)
  api_keys : AI -> string;            (* [api_keys[ai_id]] *)
  strip : string -> string;           (* [s.strip()] *)
  (* the vendors: what a call does, given every call made before it *)
  vendor : list (Call AI) -> AI -> string -> string -> Outcome
}.

Section Orchestrator.
Context {D : Deployment}.

Record World := mkWorld {
  calls : list (Call AI);
  screen : list Widget
}.

Inductive Res (A : Type) :=
| Val (a : A)
| Exit (e : Ending).
Arguments Val {A} a.
Arguments Exit {A} e.

Definition M (A : Type) := World -> Res A * World.

Definition ret {A} (a : A) : M A := fun w => (Val a, w).

Definition bind {A B} (m : M A) (f : A -> M B) : M B :=
  fun w =>
    match m w with
    | (Val a, w') => f a w'
    | (Exit e, w') => (Exit e, w')
    end.

Definition exit {A} (e : Ending) : M A := fun w => (Exit e, w).

Definition st_stop {A} : M A := exit Stopped.
Definition throw {A} (e : PyExn) : M A := exit (Uncaught e).

(** Write one widget to the page. *)
Definition emit (x : Widget) : M unit :=
  fun w => (Val tt, mkWorld (calls w) (screen w ++ [x])).

(** [CALL_FUNCTIONS[ai_id](api_key, prompt)], with what it did. *)
Definition call (ai_id : AI) (api_key prompt : string) : M Outcome :=
  fun w =>
    let o := vendor (calls w) ai_id api_key prompt in
    (Val o, mkWorld (calls w ++ [mkCall ai_id api_key prompt o]) (screen w)).

(** [d[k]] *)
Definition getitem {V} (d : dict AI V) (k : AI) : M V :=
  match dict_get AI_eq_dec k d with
  | Some v => ret v
  | None => throw KeyError
  end.

(** [l[i]] for [0 <= i]. *)
Definition index {A} (l : list A) (i : nat) : M A :=
  match nth_error l i with
  | Some a => ret a
  | None => throw IndexError
  end.

(** [for x in xs: s = body(s, x)]; a [continue] is a [ret] of the state. *)
Fixpoint for_each {A S} (body : S -> A -> M S) (xs : list A) (s : S) : M S :=
  match xs with
  | [] => ret s
  | x :: xs' => bind (body s x) (for_each body xs')
  end.

Definition enumerate {A} (xs : list A) : list (nat * A) :=
  combine (seq 0 (length xs)) xs.

Notation "x <- c1 ;; c2" := (bind c1 (fun x => c2))
  (at level 61, c1 at next level, right associativity).
Notation "' pat <- c1 ;; c2" := (bind c1 (fun x => match x with pat => c2 end))
  (at level 61, pat pattern, c1 at next level, right associativity).
Notation "c1 ;; c2" := (bind c1 (fun _ => c2))
  (at level 61, right associativity).

(** *** Prompts *)

(** The prompt of the first round (the same text in both modes). *)
Definition initial_prompt (user_input : string) : string :=
  Py.lines
    [ "다음 논문 관련 내용을 분석해주세요. 연구자 관점에서 핵심을 짚어주세요.";
      EmptyString;
      "---";
      user_input;
      "---" ].

Definition review_prompt (author_id : AI) (author_resp : option string) : string :=
  Py.lines
    [ "다음은 다른 AI의 논문 분석 답변입니다.";
      "당신의 역할: **비평가**. 이 답변에서 논리적 오류, 빠진 데이터, 부족한 근거, 또는 개선이 필요한 부분을 구체적으로 지적해주세요.";
      EmptyString;
      "**검토 대상 답변 (작성: " ++ config_name author_id ++ "):**";
      "---";
      Py.fmt author_resp;
      "---";
      "**지적 사항 (bullet point로 구체적으로):**" ].

Definition revise_prompt (initial : option string) (reviewer_id : AI)
    (review_text : string) : string :=
  Py.lines
    [ "당신의 초기 답변에 대한 검토자가 지적한 내용이 있습니다.";
      "이 지적을 **수용하여** 수정된 최종 답변을 작성해주세요. 지적이 타당하지 않다고 판단되면 그 이유를 briefly 설명하고 유지해도 됩니다.";
      EmptyString;
      "**당신의 초기 답변:**";
      "---";
      Py.fmt initial;
      "---";
      EmptyString;
      "**검토자 (" ++ config_name reviewer_id ++ ")의 지적:**";
      "---";
      review_text;
      "---";
      EmptyString;
      "**수정된 최종 답변:**" ].

Definition response_texts (valid_responses : dict AI (option string)) : string :=
  Py.join (Py.nl ++ Py.nl)
    (map (fun kv => "**【" ++ config_name (fst kv) ++ "】의 답변:**" ++ Py.nl
                    ++ Py.fmt (snd kv))
         valid_responses).

Definition consensus_prompt (user_input : string)
    (valid_responses : dict AI (option string)) : string :=
  Py.lines
    [ "다음은 동일한 논문/질문에 대한 여러 AI의 분석 결과입니다.";
      "공통점과 차이점을 정리하고, 연구자에게 가장 유용한 최종 권장 분석을 작성해주세요. 한국어로 답변해주세요.";
      EmptyString;
      "**원본 입력:**";
      user_input;
      EmptyString;
      "---";
      "**각 AI의 분석:**";
      response_texts valid_responses;
      "---";
      EmptyString;
      "다음 형식으로 Consensus Report를 작성해주세요:";
      EmptyString;
      "## 공통점";
      "- 여러 AI가 일치하는 내용을 bullet point로 나열";
      EmptyString;
      "## 차이점";
      "- AI별로 관점이나 강조점이 다른 부분을 bullet point로 나열";
      EmptyString;
      "## 최종 권장 분석";
      "- 논문 연구나 후속 연구에 활용하기에 가장 적합한 종합적인 분석 및 권장 사항을 제시" ].

(** *** The validity filters *)

(** The text the first round stores for a call that raised. *)
Definition error_text (msg : string) : string := "❌ 오류 발생: " ++ msg.

(** The text the review round stores for a call that raised. *)
Definition review_error_text (msg : string) : string := "❌ 검토 오류: " ++ msg.

(** [v and marker not in v] *)
Definition unmarked (marker : string) (v : option string) : bool :=
  match v with
  | Some s => Py.nonempty s && negb (Py.str_in marker s)
  | None => false
  end.

(** A call that returned [None] or the empty text. *)
Definition returned_nothing (o : Outcome) : bool :=
  match o with
  | Returned None => true
  | Returned (Some s) => negb (Py.nonempty s)
  | Raised _ => false
  end.

Definition raised (o : Outcome) : bool :=
  match o with Returned _ => false | Raised _ => true end.

(** The filter after the first round, in both modes. *)
Definition valid_answer : option string -> bool := unmarked "❌ 오류 발생".

(** The filter after the revision round. *)
Definition valid_revision : option string -> bool := unmarked "❌".

(** *** Round 1: the initial answers

    The loop over [available_ais.items()]; the plain mode and the deep
    mode run the same loop (into [responses] and into
    [initial_responses]). *)
Definition initial_body (user_input : string)
    (responses : dict AI (option string)) (item : AI * string)
    : M (dict AI (option string)) :=
  let (ai_id, api_key) := item in
  let prompt := initial_prompt user_input in
  o <- call ai_id api_key prompt ;;
  match o with
  | Returned v => ret (dict_set AI_eq_dec ai_id v responses)
  | Raised e => ret (dict_set AI_eq_dec ai_id (Some (error_text e)) responses)
  end.

Definition initial_stage (user_input : string) (available_ais : dict AI string)
    : M (dict AI (option string)) :=
  for_each (initial_body user_input) available_ais [].

(** [st.columns(n)] refuses [n = 0]. *)
Definition st_columns (n : nat) : M nat :=
  if Nat.eqb n 0 then throw StreamlitAPIException
  else emit (Columns n) ;; ret n.

(** The plain mode, up to its [valid_responses]. *)
Definition plain_mode (user_input : string) (available_ais : dict AI string)
    : M (dict AI (option string)) :=
  emit (Markdown (Some "### 📋 1단계: 각 AI의 초기 분석")) ;;
  responses <- initial_stage user_input available_ais ;;
  cols <- st_columns (Nat.min (length responses) 3) ;;
  for_each
    (fun (_ : unit) (entry : nat * (AI * option string)) =>
       let '(idx, (ai_id, resp)) := entry in
       emit (Expander (Some (idx mod cols))
               ("**" ++ config_name ai_id ++ "** 답변") true
               (Py.or_else resp "*답변 없음*")))
    (enumerate responses) tt ;;
  ret (dict_filter valid_answer responses).

(** *** Round 2: the round-robin review *)
Definition review_body (valid_initial : dict AI (option string))
    (reviewer_ids : list AI) (reviews : dict AI (AI * option string))
    (entry : nat * AI) : M (dict AI (AI * option string)) :=
  let (i, author_id) := entry in
  reviewer_id <- index reviewer_ids ((i + 1) mod length reviewer_ids) ;;
  if AI_eq_dec author_id reviewer_id then ret reviews
  else
    author_resp <- getitem valid_initial author_id ;;
    let api_key := api_keys reviewer_id in
    o <- call reviewer_id api_key (review_prompt author_id author_resp) ;;
    match o with
    | Returned review =>
        ret (dict_set AI_eq_dec author_id (reviewer_id, review) reviews)
    | Raised e =>
        ret (dict_set AI_eq_dec author_id
               (reviewer_id, Some (review_error_text e)) reviews)
    end.

Definition review_stage (valid_initial : dict AI (option string))
    : M (dict AI (AI * option string)) :=
  let reviewer_ids := keys valid_initial in
  for_each (review_body valid_initial reviewer_ids) (enumerate reviewer_ids) [].

(** *** Round 3: the revision *)

(** [revised_responses[author_id] = valid_initial[author_id]] *)
Definition keep_initial (valid_initial : dict AI (option string))
    (revised_responses : dict AI (option string)) (author_id : AI)
    : M (dict AI (option string)) :=
  v <- getitem valid_initial author_id ;;
  ret (dict_set AI_eq_dec author_id v revised_responses).

Definition revise_body (valid_initial : dict AI (option string))
    (reviews : dict AI (AI * option string))
    (revised_responses : dict AI (option string)) (author_id : AI)
    : M (dict AI (option string)) :=
  if negb (dict_mem AI_eq_dec author_id reviews) then
    keep_initial valid_initial revised_responses author_id
  else
    ' (reviewer_id, review_text) <- getitem reviews author_id ;;
    match review_text with
    | None => throw TypeError          (* ["❌" in None] *)
    | Some review_text =>
        if Py.str_in "❌" review_text then
          keep_initial valid_initial revised_responses author_id
        else
          let api_key := api_keys author_id in
          initial <- getitem valid_initial author_id ;;
          o <- call author_id api_key
                 (revise_prompt initial reviewer_id review_text) ;;
          match o with
          | Returned revised =>
              ret (dict_set AI_eq_dec author_id revised revised_responses)
          | Raised _ =>
              keep_initial valid_initial revised_responses author_id
          end
    end.

Definition revise_stage (valid_initial : dict AI (option string))
    (reviews : dict AI (AI * option string)) : M (dict AI (option string)) :=
  for_each (revise_body valid_initial reviews) (keys valid_initial) [].

(** One [st.expander] per entry of a round's result. *)
Definition show_answers (suffix : string) (expanded : bool)
    (d : dict AI (option string)) : M unit :=
  for_each
    (fun (_ : unit) (kv : AI * option string) =>
       emit (Expander None ("**" ++ config_name (fst kv) ++ "** " ++ suffix)
               expanded (Py.or_else (snd kv) "*답변 없음*")))
    d tt.

Definition show_reviews (reviews : dict AI (AI * option string)) : M unit :=
  for_each
    (fun (_ : unit) (entry : AI * (AI * option string)) =>
       let '(author_id, (reviewer_id, review_text)) := entry in
       emit (Expander None
               ("**" ++ config_name reviewer_id ++ "** → **"
                ++ config_name author_id ++ "** 검토")
               false (Py.or_else review_text "*검토 없음*")))
    reviews tt.

(** The deep mode from [valid_initial] on: degrade below two valid
    answers, review and revise otherwise. *)
Definition cross_review (valid_initial : dict AI (option string))
    : M (dict AI (option string)) :=
  if Nat.ltb (length valid_initial) 2 then
    emit (Warning "유효한 답변이 2개 미만입니다. 심층 토론을 진행할 수 없습니다.") ;;
    ret valid_initial
  else
    emit (Markdown (Some "#### 2단계: 상호 검토 (논리적 오류·빠진 데이터 지적)")) ;;
    reviews <- review_stage valid_initial ;;
    show_reviews reviews ;;
    emit (Markdown (Some "#### 3단계: 지적 반영 후 수정안")) ;;
    revised_responses <- revise_stage valid_initial reviews ;;
    show_answers "수정안" true revised_responses ;;
    ret (dict_filter valid_revision revised_responses).

(** The deep mode, up to its [valid_responses]. *)
Definition deep_mode (user_input : string) (available_ais : dict AI string)
    : M (dict AI (option string)) :=
  let ai_list := keys available_ais in
  emit (Markdown (Some "### 📋 심층 토론 모드: 상호 비판 (Cross-Review)")) ;;
  (if Nat.ltb (length ai_list) 2 then
     emit (Warning "⚠️ 심층 토론 모드에는 최소 2개 이상의 AI가 필요합니다. API 키를 더 추가하세요.") ;;
     st_stop
   else ret tt) ;;
  emit (Markdown (Some "#### 1단계: 각 AI의 초기 답변")) ;;
  initial_responses <- initial_stage user_input available_ais ;;
  show_answers "초기 답변" false initial_responses ;;
  let valid_initial := dict_filter valid_answer initial_responses in
  cross_review valid_initial.

(** *** The consensus report *)
Definition synthesis (user_input : string)
    (valid_responses : dict AI (option string)) : M unit :=
  emit (Markdown (Some "---")) ;;
  (if Nat.ltb (length valid_responses) 1 then
     emit (Warning "API 호출에 오류가 있어 Consensus Report를 생성할 수 없습니다.") ;;
     st_stop
   else ret tt) ;;
  emit (Markdown (Some "### 📊 Consensus Report (최종 종합)")) ;;
  let prompt := consensus_prompt user_input valid_responses in
  synthesizer_id <- index (keys valid_responses) 0 ;;
  let synthesizer_key := api_keys synthesizer_id in
  o <- call synthesizer_id synthesizer_key prompt ;;
  match o with
  | Returned consensus => emit (Markdown consensus)
  | Raised e => emit (Error ("Consensus Report 생성 중 오류: " ++ e))
  end.

(** The rounds of the selected mode. *)
Definition rounds (is_deep_mode : bool) (user_input : string)
    (available_ais : dict AI string) : M (dict AI (option string)) :=
  if negb is_deep_mode then plain_mode user_input available_ais
  else deep_mode user_input available_ais.

(** *** The body of [if analyze_button:] *)
Definition analyze (is_deep_mode : bool) (user_input : string)
    (available_ais : dict AI string) : M unit :=
  (if negb (Py.nonempty (strip user_input)) then
     emit (Warning "⚠️ PDF를 업로드하거나, 텍스트/질문을 입력해주세요.") ;;
     st_stop
   else ret tt) ;;
  (if negb (Py.nonempty_list available_ais) then
     emit (Error "❌ 최소 1개 이상의 API 키를 입력해주세요.") ;;
     st_stop
   else ret tt) ;;
  valid_responses <- rounds is_deep_mode user_input available_ais ;;
  synthesis user_input valid_responses.

(** A run of the script: how it ended, and the world it left. *)
Definition run (is_deep_mode : bool) (user_input : string)
    (available_ais : dict AI string) (w : World) : Ending * World :=
  match analyze is_deep_mode user_input available_ais w with
  | (Val _, w') => (Finished, w')
  | (Exit e, w') => (e, w')
  end.

(** *** Round 1, call by call

    The calls round 1 makes after the calls [history], and the entry
    each of them leaves in the result. *)
Definition stored (o : Outcome) : option string :=
  match o with
  | Returned v => v
  | Raised e => Some (error_text e)
  end.

Definition entry_of (c : Call AI) : AI * option string :=
  (callee c, stored (outcome c)).

Fixpoint initial_calls (user_input : string) (available_ais : dict AI string)
    (history : list (Call AI)) : list (Call AI) :=
  match available_ais with
  | [] => []
  | (ai_id, api_key) :: rest =>
      let prompt := initial_prompt user_input in
      let c := mkCall ai_id api_key prompt
                 (vendor history ai_id api_key prompt) in
      c :: initial_calls user_input rest (history ++ [c])
  end.

(** *** Round 2, call by call *)

(** [reviewer_ids[(i + 1) % len(reviewer_ids)]] *)
Definition assigned_reviewer (reviewer_ids : list AI) (i : nat) : option AI :=
  nth_error reviewer_ids ((i + 1) mod length reviewer_ids).

(** The text round 2 keeps of a review call. *)
Definition review_text_of (o : Outcome) : option string :=
  match o with
  | Returned review => review
  | Raised e => Some (review_error_text e)
  end.

(** The entry of [reviews] that the call [c] leaves for [author_id]. *)
Definition review_entry (ac : AI * Call AI) : AI * (AI * option string) :=
  (fst ac, (callee (snd ac), review_text_of (outcome (snd ac)))).

(** *** Round 3, author by author

    [revision_of valid_initial reviews a step v]: the pass of the loop
    for the author [a] makes the call [step] (or none) and stores [v] in
    [revised_responses[a]]. *)
Inductive revision_of (valid_initial : dict AI (option string))
    (reviews : dict AI (AI * option string)) (a : AI)
    : option (Call AI) -> option string -> Prop :=
| kept_without_review v0 :
    dict_get AI_eq_dec a valid_initial = Some v0 ->
    dict_get AI_eq_dec a reviews = None ->
    revision_of valid_initial reviews a None v0
| kept_after_failed_review v0 r t :
    dict_get AI_eq_dec a valid_initial = Some v0 ->
    dict_get AI_eq_dec a reviews = Some (r, Some t) ->
    Py.str_in "❌" t = true ->
    revision_of valid_initial reviews a None v0
| revised_by_call v0 r t c v :
    dict_get AI_eq_dec a valid_initial = Some v0 ->
    dict_get AI_eq_dec a reviews = Some (r, Some t) ->
    Py.str_in "❌" t = false ->
    callee c = a -> call_key c = api_keys a ->
    call_prompt c = revise_prompt v0 r t ->
    outcome c = Returned v ->
    revision_of valid_initial reviews a (Some c) v
| kept_after_failed_call v0 r t c msg :
    dict_get AI_eq_dec a valid_initial = Some v0 ->
    dict_get AI_eq_dec a reviews = Some (r, Some t) ->
    Py.str_in "❌" t = false ->
    callee c = a -> call_key c = api_keys a ->
    call_prompt c = revise_prompt v0 r t ->
    outcome c = Raised msg ->
    revision_of valid_initial reviews a (Some c) v0.

(** The calls among the steps of a round. *)
Fixpoint calls_of (steps : list (option (Call AI))) : list (Call AI) :=
  match steps with
  | [] => []
  | Some c :: rest => c :: calls_of rest
  | None :: rest => calls_of rest
  end.

(** The expanders [show_answers] writes. *)
Definition answer_widgets (suffix : string) (expanded : bool)
    (d : dict AI (option string)) : list Widget :=
  map (fun kv => Expander None ("**" ++ config_name (fst kv) ++ "** " ++ suffix)
                   expanded (Py.or_else (snd kv) "*답변 없음*")) d.

(** The page of the deep mode after round 1. *)
Definition deep_page (ui : string) (available_ais : dict AI string)
    (w : World) : World :=
  let cs := initial_calls ui available_ais (calls w) in
  mkWorld (calls w ++ cs)
    (screen w
     ++ [Markdown (Some "### 📋 심층 토론 모드: 상호 비판 (Cross-Review)");
         Markdown (Some "#### 1단계: 각 AI의 초기 답변")]
     ++ answer_widgets "초기 답변" false (map entry_of cs)).

End Orchestrator.

Arguments Val {A} a.
Arguments Exit {A} e.

(** ** The deployment of [app.py] *)

Module App.

(** The keys of [AI_CONFIG], in the order of the literal. *)
Inductive ai_id := openai | gemini | perplexity | claude.

Definition ai_id_eq_dec (a b : ai_id) : {a = b} + {a <> b}.
Proof. decide equality. Defined.

Definition AI_CONFIG : list ai_id := [openai; gemini; perplexity; claude].

Definition name (a : ai_id) : string :=
  match a with
  | openai => "GPT (OpenAI)"
  | gemini => "Gemini (Google)"
  | perplexity => "Perplexity"
  | claude => "Claude (Anthropic)"
  end.

(** The sidebar loop: one [st.text_input] per key of [AI_CONFIG]. *)
Definition collect_api_keys (text_input : ai_id -> string) : dict ai_id string :=
  map (fun a => (a, text_input a)) AI_CONFIG.

(** [{k: v for k, v in api_keys.items() if v and v.strip()}] *)
Definition available_ais (strip : string -> string)
    (text_input : ai_id -> string) : dict ai_id string :=
  dict_filter (fun v => Py.nonempty v && Py.nonempty (strip v))
    (collect_api_keys text_input).

Definition deployment (strip : string -> string)
    (text_input : ai_id -> string)
    (vendor : list (Call ai_id) -> ai_id -> string -> string -> Outcome)
    : Deployment :=
  {| AI := ai_id; AI_eq_dec := ai_id_eq_dec; config_name := name;
     api_keys := text_input; strip := strip; vendor := vendor |}.

(** A press of the button, from the text inputs of the sidebar. *)
Definition script (strip : string -> string) (text_input : ai_id -> string)
    (vendor : list (Call ai_id) -> ai_id -> string -> string -> Outcome)
    (is_deep_mode : bool) (user_input : string) :=
  run (D := deployment strip text_input vendor) is_deep_mode user_input
    (available_ais strip text_input).

(** [s.strip()] for a text whose white space is ASCII, as in the runs
    below. *)
Definition is_space (c : ascii) : bool :=
  match nat_of_ascii c with
  | 9 | 10 | 11 | 12 | 13 | 28 | 29 | 30 | 31 | 32 => true
  | _ => false
  end.

Fixpoint lstrip (s : string) : string :=
  match s with
  | EmptyString => EmptyString
  | String c rest => if is_space c then lstrip rest else s
  end.

Fixpoint rev_onto (s acc : string) : string :=
  match s with
  | EmptyString => acc
  | String c rest => rev_onto rest (String c acc)
  end.

Definition strip_ascii (s : string) : string :=
  rev_onto (lstrip (rev_onto (lstrip s) EmptyString)) EmptyString.

(** Nothing called and nothing written yet. *)
Definition blank (D : Deployment) : World := mkWorld [] [].

(** *** Runs used below *)

Definition four_keys (a : ai_id) : string :=
  match a with
  | openai => "sk-1"
  | gemini => "AIza-2"
  | perplexity => "pplx-3"
  | claude => "sk-ant-4"
  end.

Definition two_keys (a : ai_id) : string :=
  match a with
  | openai => "sk-1"
  | gemini => "AIza-2"
  | _ => EmptyString
  end.

(** A vendor that answers the [n]-th call of a run (from 0) with
    [script n]. *)
Definition scripted (script : nat -> Outcome)
    (history : list (Call ai_id)) (a : ai_id) (key prompt : string) : Outcome :=
  script (length history).

(** One AI raises, one quotes the error marker in its answer, one answers
    with the empty text, one answers. *)
Definition mixed_vendor (history : list (Call ai_id)) (a : ai_id)
    (key prompt : string) : Outcome :=
  match a with
  | openai => Raised "timeout"
  | gemini => Returned (Some "표 3에는 ❌ 오류 발생 이라고 표시된 항목이 있습니다.")
  | perplexity => Returned (Some EmptyString)
  | claude => Returned (Some "핵심 기여는 세 가지입니다.")
  end.

Definition mixed : Deployment := deployment strip_ascii four_keys mixed_vendor.

(** The deep mode with two keys entered makes its calls in this order:
    0 and 1 the initial answers of [openai] and [gemini], 2 the review of
    [openai] by [gemini], 3 the review of [gemini] by [openai], then the
    revisions of [openai] and of [gemini], then the synthesis. *)
Definition two (script : nat -> Outcome) : Deployment :=
  deployment strip_ascii two_keys (scripted script).

Definition three_keys (a : ai_id) : string :=
  match a with
  | openai => "sk-1"
  | gemini => "AIza-2"
  | perplexity => EmptyString
  | claude => "sk-ant-4"
  end.

Definition three (script : nat -> Outcome) : Deployment :=
  deployment strip_ascii three_keys (scripted script).

Definition one_key (a : ai_id) : string :=
  match a with openai => "sk-1" | _ => EmptyString end.

(** Only [openai] answers in round 1, and the synthesis call raises. *)
Definition lone_answer (n : nat) : Outcome :=
  match n with
  | 0 => Returned (Some "초기 답변 A")
  | 1 => Raised "rate limit"
  | _ => Raised "quota exceeded"
  end.

(** The review of [openai] by [gemini] comes back as [None]. *)
Definition review_is_None (n : nat) : Outcome :=
  match n with
  | 2 => Returned None
  | _ => Returned (Some "답변")
  end.

(** The answer of [openai] uses the sign ❌ as a bullet, and its review
    raises. *)
Definition bullet_answer (n : nat) : Outcome :=
  match n with
  | 0 => Returned (Some "한계: ❌ 표본 수가 적음")
  | 2 => Raised "timeout"
  | _ => Returned (Some "답변")
  end.

(** The revision call of [openai] returns the empty text, or raises. *)
Definition revision_is_empty (n : nat) : Outcome :=
  match n with
  | 4 => Returned (Some EmptyString)
  | _ => Returned (Some "답변")
  end.

Definition revision_raises (n : nat) : Outcome :=
  match n with
  | 4 => Raised "timeout"
  | _ => Returned (Some "답변")
  end.

(** Every call raises. *)
Definition offline (n : nat) : Outcome := Raised "no network".

(** Every call answers. *)
Definition all_answer (n : nat) : Outcome := Returned (Some "답변").

(** The AIs whose key is entered, in each of these sidebars. *)
Definition two_ais : dict ai_id string := available_ais strip_ascii two_keys.
Definition three_ais : dict ai_id string := available_ais strip_ascii three_keys.
Definition four_ais : dict ai_id string := available_ais strip_ascii four_keys.
Definition one_ai : dict ai_id string := available_ais strip_ascii one_key.

(** Five reviewers, named by their position. *)
Definition five : Deployment :=
  {| AI := nat; AI_eq_dec := Nat.eq_dec;
     config_name := fun _ => "AI"; api_keys := fun _ => "key";
     strip := strip_ascii;
     vendor := fun _ _ _ _ => Returned (Some "답변") |}.

Definition five_answers : dict nat (option string) :=
  map (fun i => (i, Some "답변")) [0; 1; 2; 3; 4].

End App.

(** ** The page above the button

    The part of [app.py] that runs before the button is looked at: the text
    of the uploaded PDF, the choice of what is analysed, and the input that
    the rounds receive.  The widgets of this part are not modelled, only
    the values it hands on. *)

Module Page.

(** *** [str.strip()]

    White space is what [str.isspace] accepts: U+0009 to U+000D, U+001C to
    U+0020, U+0085, U+00A0, U+1680, U+2000 to U+200A, U+2028, U+2029,
    U+202F, U+205F and U+3000, here in their UTF-8 encodings of one, two
    and three bytes. *)
Definition space1 (c : ascii) : bool :=
  let n := nat_of_ascii c in
  (Nat.leb 9 n && Nat.leb n 13) || (Nat.leb 28 n && Nat.leb n 32).

Definition space2 (c1 c2 : ascii) : bool :=
  Nat.eqb (nat_of_ascii c1) 194 &&
  (Nat.eqb (nat_of_ascii c2) 133 || Nat.eqb (nat_of_ascii c2) 160).

Definition space3 (c1 c2 c3 : ascii) : bool :=
  let n1 := nat_of_ascii c1 in
  let n2 := nat_of_ascii c2 in
  let n3 := nat_of_ascii c3 in
  (Nat.eqb n1 225 && Nat.eqb n2 154 && Nat.eqb n3 128) ||
  (Nat.eqb n1 226 && Nat.eqb n2 128 &&
   ((Nat.leb 128 n3 && Nat.leb n3 138) || Nat.eqb n3 168 || Nat.eqb n3 169
    || Nat.eqb n3 175)) ||
  (Nat.eqb n1 226 && Nat.eqb n2 129 && Nat.eqb n3 159) ||
  (Nat.eqb n1 227 && Nat.eqb n2 128 && Nat.eqb n3 128).

(** [s.lstrip()] *)
Fixpoint lstrip (s : string) : string :=
  match s with
  | EmptyString => EmptyString
  | String c1 r1 =>
      if space1 c1 then lstrip r1
      else
        match r1 with
        | EmptyString => s
        | String c2 r2 =>
            if space2 c1 c2 then lstrip r2
            else
              match r2 with
              | EmptyString => s
              | String c3 r3 => if space3 c1 c2 c3 then lstrip r3 else s
              end
        end
  end.

(** [s.isspace() or not s] *)
Fixpoint is_blank (s : string) : bool :=
  match s with
  | EmptyString => true
  | String c1 r1 =>
      if space1 c1 then is_blank r1
      else
        match r1 with
        | EmptyString => false
        | String c2 r2 =>
            if space2 c1 c2 then is_blank r2
            else
              match r2 with
              | EmptyString => false
              | String c3 r3 => space3 c1 c2 c3 && is_blank r3
              end
        end
  end.

(** [s.rstrip()] *)
Fixpoint rstrip (s : string) : string :=
  match s with
  | EmptyString => EmptyString
  | String c r => if is_blank s then EmptyString else String c (rstrip r)
  end.

(** [s.strip()] *)
Definition str_strip (s : string) : string := rstrip (lstrip s).

(** *** [extract_text_from_pdf]

    What PyMuPDF makes of the upload: it raises somewhere between
    [fitz.open] and the last block, or it yields the blocks of every page.
    The function reads the field 4 of a block, its text, and nothing else
    of it. *)
Inductive Pdf (Block : Type) :=
| Unreadable (msg : string)
| Pages (pages : list (list Block)).
Arguments Unreadable {Block}.
Arguments Pages {Block}.

Section Extraction.
Context {Block : Type}.
Variable block_text : Block -> string.      (* [block[4]] *)
Variable strip : string -> string.

(** The two loops that fill [text_parts]. *)
Definition text_parts (pages : list (list Block)) : list string :=
  flat_map
    (fun blocks =>
       flat_map
         (fun block =>
            if Py.nonempty (strip (block_text block))
            then [strip (block_text block)] else [])
         blocks)
    pages.

Definition extract_text_from_pdf (uploaded_file : Pdf Block) : string :=
  match uploaded_file with
  | Pages pages =>
      let parts := text_parts pages in
      if Py.nonempty_list parts then Py.join (Py.nl ++ Py.nl) parts
      else EmptyString
  | Unreadable e => "❌ PDF 추출 오류: " ++ e
  end.

(** [extracted_text] after the upload block. *)
Definition extracted_text (PDF_AVAILABLE : bool) (pdf_file : option (Pdf Block))
    : string :=
  if PDF_AVAILABLE then
    match pdf_file with
    | Some uploaded_file => extract_text_from_pdf uploaded_file
    | None => EmptyString
    end
  else EmptyString.

(** What is analysed: the text of the PDF first, the typed text otherwise. *)
Definition content_to_analyze (extracted_text user_text : string) : string :=
  if Py.nonempty extracted_text && negb (String.prefix "❌" extracted_text)
  then extracted_text
  else if Py.nonempty (strip user_text) then strip user_text
  else EmptyString.

(** The input of the rounds: the content with the question, or the question
    alone. *)
Definition user_input (user_question content_to_analyze : string) : string :=
  if Py.nonempty content_to_analyze then
    Py.lines
      [ "[분석 요청]";
        user_question;
        EmptyString;
        "[논문/텍스트 내용]";
        content_to_analyze ]
  else if Py.nonempty (strip user_question) then user_question
  else EmptyString.

End Extraction.

(** The options of the radio button of the sidebar. *)
Definition analysis_modes : list string :=
  [ "일반 모드 (단순 종합)"; "심층 토론 모드 (상호 비판)" ].

Definition is_deep_mode (analysis_mode : string) : bool :=
  Py.str_in "심층" analysis_mode.

(** A press of the button, from everything entered on the page. *)
Definition press {Block : Type} (block_text : Block -> string)
    (strip : string -> string) (text_input : App.ai_id -> string)
    (vendor : list (Call App.ai_id) -> App.ai_id -> string -> string -> Outcome)
    (analysis_mode : string) (PDF_AVAILABLE : bool)
    (pdf_file : option (Pdf Block)) (user_question user_text : string) :=
  App.script strip text_input vendor (is_deep_mode analysis_mode)
    (user_input strip user_question
       (content_to_analyze strip
          (extracted_text block_text strip PDF_AVAILABLE pdf_file) user_text)).

End Page.

(** ** Conditions read off the script *)

Section Checks.
Context {D : Deployment}.

(** The checks the script makes before its first call: the input is not
    blank, an API key is entered, and the deep mode has two AIs. *)
Definition ready (is_deep_mode : bool) (user_input : string)
    (available_ais : dict AI string) : bool :=
  Py.nonempty (strip user_input) && Py.nonempty_list available_ais &&
  (negb is_deep_mode || Nat.leb 2 (length (keys available_ais))).

(** The test of round 3 for asking a revision of [author_id]: the author
    has a review, and its text does not contain the sign. *)
Definition review_is_clean (reviews : dict AI (AI * option string))
    (author_id : AI) : bool :=
  match dict_get AI_eq_dec author_id reviews with
  | Some (_, Some review_text) => negb (Py.str_in "❌" review_text)
  | _ => false
  end.

End Checks.

(** Where a loop or a round may end: by returning, or on the [TypeError]
    of round 3. *)
Definition returns_or_TypeError {A} (r : Res A) : Prop :=
  match r with
  | Val _ => True
  | Exit e => e = Uncaught TypeError
  end.

(** ** Facts about dicts *)

Open Scope list_scope.

Section DictFacts.
Context {K V : Type}.
Variable K_eq_dec : forall a b : K, {a = b} + {a <> b}.
Implicit Types (d : dict K V) (k : K) (v : V).

Lemma dict_set_fresh k v d :
  ~ In k (keys d) -> dict_set K_eq_dec k v d = d ++ [(k, v)].
Proof.
  induction d as [|[k' v'] d IH]; simpl; intros Hk; [reflexivity|].
  destruct (K_eq_dec k' k) as [->|_]; [tauto|].
  rewrite IH; tauto.
Qed.

Lemma dict_get_In_keys k d :
  In k (keys d) -> exists v, dict_get K_eq_dec k d = Some v.
Proof.
  induction d as [|[k' v'] d IH]; simpl; [tauto|].
  destruct (K_eq_dec k' k) as [|Hne]; [eauto|].
  intros [Heq|Hin]; [contradiction | auto].
Qed.

Lemma dict_get_not_In k d :
  ~ In k (keys d) -> dict_get K_eq_dec k d = None.
Proof.
  induction d as [|[k' v'] d IH]; simpl; [reflexivity|].
  intros Hk. destruct (K_eq_dec k' k); tauto.
Qed.

Lemma dict_get_Some_In k v d :
  dict_get K_eq_dec k d = Some v -> In (k, v) d.
Proof.
  induction d as [|[k' v'] d IH]; simpl; [discriminate|].
  destruct (K_eq_dec k' k) as [->|_]; [intros [= ->]; auto | auto].
Qed.

Lemma dict_get_In k v d :
  NoDup (keys d) -> In (k, v) d -> dict_get K_eq_dec k d = Some v.
Proof.
  induction d as [|[k' v'] d IH]; simpl; [tauto|].
  intros Hnd [[= -> ->]|Hin].
  - destruct (K_eq_dec k k); congruence.
  - inversion Hnd as [|? ? Hk' Hnd']; subst.
    destruct (K_eq_dec k' k) as [->|_]; [|auto].
    exfalso. apply Hk'. change k with (fst (k, v)). now apply in_map.
Qed.

Lemma dict_mem_In_keys k d :
  dict_mem K_eq_dec k d = true <-> In k (keys d).
Proof.
  unfold dict_mem. split.
  - destruct (dict_get K_eq_dec k d) eqn:E; [|discriminate].
    intros _. apply dict_get_Some_In in E.
    change k with (fst (k, v)). now apply in_map.
  - intros Hin. destruct (dict_get_In_keys k d Hin) as [v ->]. reflexivity.
Qed.

Lemma dict_get_app k d d' :
  dict_get K_eq_dec k (d ++ d') =
  match dict_get K_eq_dec k d with
  | Some v => Some v
  | None => dict_get K_eq_dec k d'
  end.
Proof.
  induction d as [|[k' v'] d IH]; simpl; [reflexivity|].
  destruct (K_eq_dec k' k); auto.
Qed.

Lemma keys_app d d' : keys (d ++ d') = keys d ++ keys d'.
Proof. apply map_app. Qed.

Lemma keys_filter_incl (p : V -> bool) d k :
  In k (keys (dict_filter p d)) -> In k (keys d).
Proof.
  unfold keys, dict_filter. rewrite !in_map_iff.
  intros [kv [<- Hin]]. apply filter_In in Hin. exists kv. tauto.
Qed.

Lemma NoDup_keys_filter (p : V -> bool) d :
  NoDup (keys d) -> NoDup (keys (dict_filter p d)).
Proof.
  induction d as [|[k v] d IH]; simpl; [constructor|].
  intros Hnd. inversion Hnd as [|? ? Hk Hnd']; subst.
  destruct (p v); simpl; [constructor|]; auto.
  intros Hin. apply Hk. eapply keys_filter_incl, Hin.
Qed.

(** Filtering a dict keeps an entry exactly when its value passes. *)
Lemma dict_get_filter (p : V -> bool) k d :
  NoDup (keys d) ->
  dict_get K_eq_dec k (dict_filter p d) =
  match dict_get K_eq_dec k d with
  | Some v => if p v then Some v else None
  | None => None
  end.
Proof.
  induction d as [|[k' v'] d IH]; simpl; [reflexivity|].
  intros Hnd. inversion Hnd as [|? ? Hk Hnd']; subst.
  destruct (K_eq_dec k' k) as [->|Hne].
  - destruct (p v') eqn:Ep; simpl.
    + destruct (K_eq_dec k k); congruence.
    + apply dict_get_not_In. intros Hin. apply Hk.
      eapply keys_filter_incl, Hin.
  - destruct (p v'); simpl; [destruct (K_eq_dec k' k); [congruence|]|]; auto.
Qed.

(** The keys that survive a filter, read off the original order. *)
Lemma keys_filter_mem (p : V -> bool) d :
  NoDup (keys d) ->
  keys (dict_filter p d) =
  filter (fun k => dict_mem K_eq_dec k (dict_filter p d)) (keys d).
Proof.
  intros Hnd.
  assert (Hgen : forall d0, incl d0 d -> NoDup (keys d0) ->
            keys (dict_filter p d0) =
            filter (fun k => dict_mem K_eq_dec k (dict_filter p d)) (keys d0)).
  { induction d0 as [|[k v] d0 IH]; simpl; intros Hincl Hnd0; [reflexivity|].
    inversion Hnd0; subst.
    assert (Hkv : In (k, v) d) by (apply Hincl; now left).
    unfold dict_mem at 1. rewrite dict_get_filter by assumption.
    rewrite (dict_get_In k v d Hnd Hkv).
    destruct (p v); simpl; [f_equal|]; apply IH; auto;
      intros x Hx; apply Hincl; now right. }
  apply Hgen; [apply incl_refl | assumption].
Qed.

End DictFacts.

(** ** Facts about the rounds *)

Section Rounds.
Context {D : Deployment}.
Implicit Types (w : World) (ui : string).

Ltac monad := unfold bind, ret, emit, call, exit, st_stop, throw; simpl.

(** A loop that only writes widgets. *)
Lemma for_each_emit {A} (body : unit -> A -> M unit) (f : A -> Widget) xs w :
  (forall s x, body s x = emit (f x)) ->
  for_each body xs tt w = (Val tt, mkWorld (calls w) (screen w ++ map f xs)).
Proof.
  intros Hbody. revert w.
  induction xs as [|x xs IH]; intros w; simpl.
  - rewrite app_nil_r. now destruct w.
  - unfold bind. rewrite Hbody. unfold emit. rewrite IH. simpl.
    now rewrite <- app_assoc.
Qed.

Lemma show_answers_run suffix expanded d w :
  show_answers suffix expanded d w =
  (Val tt, mkWorld (calls w) (screen w ++ answer_widgets suffix expanded d)).
Proof. apply for_each_emit. reflexivity. Qed.

Lemma show_reviews_run reviews w :
  exists ws, show_reviews reviews w =
             (Val tt, mkWorld (calls w) (screen w ++ ws)).
Proof.
  eexists. apply for_each_emit with
    (f := fun entry : AI * (AI * option string) =>
            let '(author_id, (reviewer_id, review_text)) := entry in
            Expander None
              ("**" ++ config_name reviewer_id ++ "** → **"
               ++ config_name author_id ++ "** 검토")%string
              false (Py.or_else review_text "*검토 없음*")).
  intros _ [a [r t]]. reflexivity.
Qed.

(** *** Round 1 *)

Lemma initial_calls_callee ui available_ais history :
  map callee (initial_calls ui available_ais history) = keys available_ais.
Proof.
  revert history. induction available_ais as [|[a k] rest IH]; intros h; simpl;
    [reflexivity | now rewrite IH].
Qed.

Lemma initial_calls_key ui available_ais history :
  map call_key (initial_calls ui available_ais history) = map snd available_ais.
Proof.
  revert history. induction available_ais as [|[a k] rest IH]; intros h; simpl;
    [reflexivity | now rewrite IH].
Qed.

Lemma initial_calls_prompt ui available_ais history c :
  In c (initial_calls ui available_ais history) ->
  call_prompt c = initial_prompt ui.
Proof.
  revert history. induction available_ais as [|[a k] rest IH]; intros h; simpl;
    [tauto|]. intros [<-|Hin]; [reflexivity | eauto].
Qed.

Lemma keys_entries (cs : list (Call AI)) :
  keys (map entry_of cs) = map callee cs.
Proof. unfold keys. rewrite map_map. reflexivity. Qed.

Lemma initial_loop ui items : forall acc w,
  NoDup (keys acc ++ keys items) ->
  for_each (initial_body ui) items acc w =
  (Val (acc ++ map entry_of (initial_calls ui items (calls w))),
   mkWorld (calls w ++ initial_calls ui items (calls w)) (screen w)).
Proof.
  induction items as [|[a k] rest IH]; intros acc w Hnd; simpl.
  - rewrite !app_nil_r. now destruct w.
  - assert (Hfresh : ~ In a (keys acc)).
    { intros Hin. apply NoDup_remove_2 in Hnd. apply Hnd.
      apply in_or_app. now left. }
    assert (Hnd' : forall v, NoDup (keys (acc ++ [(a, v)]) ++ keys rest)).
    { intros v. rewrite keys_app. simpl. now rewrite <- app_assoc. }
    monad.
    destruct (vendor (calls w) a k (initial_prompt ui)) as [v|e];
      monad; rewrite dict_set_fresh by assumption;
      rewrite IH by apply Hnd'; simpl;
      now rewrite <- !app_assoc.
Qed.

(** Round 1 never leaves early: it makes one call per configured AI, in
    the order of [available_ais], and stores one entry for each. *)
Lemma initial_stage_run ui available_ais w :
  NoDup (keys available_ais) ->
  initial_stage ui available_ais w =
  (Val (map entry_of (initial_calls ui available_ais (calls w))),
   mkWorld (calls w ++ initial_calls ui available_ais (calls w)) (screen w)).
Proof.
  intros Hnd. unfold initial_stage. now rewrite initial_loop.
Qed.

Lemma bind_val {A B} (m : M A) (f : A -> M B) w a w' :
  m w = (Val a, w') -> bind m f w = f a w'.
Proof. unfold bind. now intros ->. Qed.

Lemma bind_exit {A B} (m : M A) (f : A -> M B) w e w' :
  m w = (Exit e, w') -> bind m f w = (Exit e, w').
Proof. unfold bind. now intros ->. Qed.

(** *** The first validity filter *)

Lemma valid_answer_error_text msg : valid_answer (Some (error_text msg)) = false.
Proof. reflexivity. Qed.

Lemma unmarked_iff marker v :
  unmarked marker v = true <->
  exists s, v = Some s /\ s <> EmptyString /\ Py.str_in marker s = false.
Proof.
  destruct v as [[|c s]|]; simpl; split.
  - discriminate.
  - intros [s [[= <-] [Hs _]]]. congruence.
  - intros H. exists (String c s). apply negb_true_iff in H.
    repeat split; [discriminate | exact H].
  - intros [s' [[= <-] [_ H]]]. apply negb_true_iff. exact H.
  - discriminate.
  - intros [s [[=] _]].
Qed.

(** An answer is kept by the first filter exactly when its call returned a
    text that is not empty and does not show the error marker. *)
Lemma valid_answer_stored o :
  valid_answer (stored o) = true <->
  exists s, o = Returned (Some s) /\ s <> EmptyString /\
            Py.str_in "❌ 오류 발생" s = false.
Proof.
  destruct o as [v|msg]; cbn [stored].
  - unfold valid_answer. rewrite unmarked_iff. split.
    + intros [s [-> H]]. eauto.
    + intros [s [[= ->] H]]. eauto.
  - rewrite valid_answer_error_text. split; [discriminate|].
    intros [s [[=] _]].
Qed.

(** *** The plain mode *)

Lemma st_columns_run n w :
  n <> 0 ->
  st_columns n w = (Val n, mkWorld (calls w) (screen w ++ [Columns n])).
Proof.
  intros Hn. unfold st_columns. apply Nat.eqb_neq in Hn. now rewrite Hn.
Qed.

Lemma plain_mode_run ui available_ais w :
  NoDup (keys available_ais) -> available_ais <> [] ->
  let cs := initial_calls ui available_ais (calls w) in
  exists ws,
    plain_mode ui available_ais w =
    (Val (dict_filter valid_answer (map entry_of cs)),
     mkWorld (calls w ++ cs) (screen w ++ ws)).
Proof.
  intros Hnd Hne cs. unfold plain_mode.
  set (w0 := mkWorld (calls w)
               (screen w ++ [Markdown (Some "### 📋 1단계: 각 AI의 초기 분석")])).
  assert (H0 : emit (Markdown (Some "### 📋 1단계: 각 AI의 초기 분석")) w
               = (Val tt, w0)) by reflexivity.
  rewrite (bind_val _ _ _ _ _ H0).
  rewrite (bind_val _ _ _ _ _ (initial_stage_run ui available_ais w0 Hnd)).
  erewrite bind_val.
  2:{ apply st_columns_run. subst w0. simpl.
      rewrite length_map, <- (length_map callee), initial_calls_callee.
      destruct available_ais; [congruence | simpl; lia]. }
  erewrite bind_val.
  2:{ apply for_each_emit with
        (f := fun entry : nat * (AI * option string) =>
                let '(idx, (ai_id, resp)) := entry in
                Expander (Some (idx mod Nat.min (length (map entry_of cs)) 3))
                  ("**" ++ config_name ai_id ++ "** 답변")%string true
                  (Py.or_else resp "*답변 없음*")).
      intros _ [i [a r]]. reflexivity. }
  unfold ret. subst w0. simpl. rewrite <- !app_assoc. simpl.
  eexists. reflexivity.
Qed.

(** *** Round 2 *)

Lemma next_index_differs i n : 2 <= n -> i < n -> (i + 1) mod n <> i.
Proof.
  intros Hn Hi. destruct (Nat.eq_dec (i + 1) n) as [E|E].
  - rewrite E, Nat.Div0.mod_same. lia.
  - rewrite Nat.mod_small by lia. lia.
Qed.

(** One pass of the review loop, for an author whose reviewer is another
    AI. *)
Lemma review_body_step valid_initial reviewer_ids acc i a r v0 w :
  nth_error reviewer_ids ((i + 1) mod length reviewer_ids) = Some r ->
  a <> r ->
  dict_get AI_eq_dec a valid_initial = Some v0 ->
  ~ In a (keys acc) ->
  let c := mkCall r (api_keys r) (review_prompt a v0)
             (vendor (calls w) r (api_keys r) (review_prompt a v0)) in
  review_body valid_initial reviewer_ids acc (i, a) w =
  (Val (acc ++ [review_entry (a, c)]), mkWorld (calls w ++ [c]) (screen w)).
Proof.
  intros Hr Hne Hv0 Hfresh c.
  unfold review_body, index, getitem. rewrite Hr, Hv0. monad.
  destruct (AI_eq_dec a r) as [|_]; [contradiction|]. simpl.
  unfold review_entry. subst c. simpl.
  destruct (vendor (calls w) r (api_keys r) (review_prompt a v0)); simpl;
    now rewrite dict_set_fresh by assumption.
Qed.

Lemma review_loop valid_initial reviewer_ids :
  NoDup reviewer_ids -> 2 <= length reviewer_ids ->
  (forall a, In a reviewer_ids -> In a (keys valid_initial)) ->
  forall suffix prefix acc w,
    reviewer_ids = prefix ++ suffix -> keys acc = prefix ->
    exists cs,
      for_each (review_body valid_initial reviewer_ids)
        (combine (seq (length prefix) (length suffix)) suffix) acc w =
      (Val (acc ++ map review_entry (combine suffix cs)),
       mkWorld (calls w ++ cs) (screen w)) /\
      length cs = length suffix /\
      Forall2 (fun i c => assigned_reviewer reviewer_ids i = Some (callee c))
        (seq (length prefix) (length suffix)) cs /\
      Forall (fun c => call_key c = api_keys (callee c)) cs.
Proof.
  intros Hnd Hlen Hin.
  induction suffix as [|a rest IH]; intros prefix acc w Hids Hacc.
  - exists []. simpl. rewrite !app_nil_r. destruct w. auto.
  - set (i := length prefix).
    assert (Hi : i < length reviewer_ids)
      by (rewrite Hids, length_app; simpl; lia).
    assert (Ha : nth_error reviewer_ids i = Some a)
      by (rewrite Hids, nth_error_app2, Nat.sub_diag by lia; reflexivity).
    assert (Hlt : (i + 1) mod length reviewer_ids < length reviewer_ids)
      by (apply Nat.mod_upper_bound; lia).
    destruct (nth_error reviewer_ids ((i + 1) mod length reviewer_ids))
      as [r|] eqn:Hr; [|apply nth_error_None in Hr; lia].
    assert (Hne : a <> r).
    { intros ->. rewrite <- Ha in Hr.
      apply (proj1 (NoDup_nth_error reviewer_ids) Hnd) in Hr; [|exact Hlt].
      revert Hr. apply next_index_differs; assumption. }
    destruct (dict_get_In_keys AI_eq_dec a valid_initial) as [v0 Hv0].
    { apply Hin. rewrite Hids. apply in_or_app. right. now left. }
    assert (Hfresh : ~ In a (keys acc)).
    { rewrite Hacc. rewrite Hids in Hnd. apply NoDup_remove_2 in Hnd.
      intros Hp. apply Hnd, in_or_app. now left. }
    pose proof (review_body_step valid_initial reviewer_ids acc i a r v0 w
                  Hr Hne Hv0 Hfresh) as Hstep.
    cbv zeta in Hstep.
    set (c := mkCall r (api_keys r) (review_prompt a v0)
                (vendor (calls w) r (api_keys r) (review_prompt a v0))) in *.
    destruct (IH (prefix ++ [a]) (acc ++ [review_entry (a, c)])
                (mkWorld (calls w ++ [c]) (screen w)))
      as (cs & Hrun & Hl & Hf2 & Hf).
    { now rewrite <- app_assoc. }
    { rewrite keys_app, Hacc. reflexivity. }
    rewrite length_app in Hrun, Hf2. simpl in Hrun, Hf2.
    replace (length prefix + 1) with (S i) in Hrun, Hf2 by (subst i; lia).
    exists (c :: cs).
    cbn [length seq combine for_each]. fold i.
    rewrite (bind_val _ _ _ _ _ Hstep), Hrun.
    rewrite <- !app_assoc. simpl.
    repeat split; auto.
Qed.

(** Round 2 never leaves early.  It makes one call per author, to the
    next AI in the cyclic order of the authors. *)
Lemma review_stage_run valid_initial w :
  NoDup (keys valid_initial) -> 2 <= length valid_initial ->
  exists cs,
    review_stage valid_initial w =
    (Val (map review_entry (combine (keys valid_initial) cs)),
     mkWorld (calls w ++ cs) (screen w)) /\
    length cs = length valid_initial /\
    Forall2 (fun i c => assigned_reviewer (keys valid_initial) i
                        = Some (callee c))
      (seq 0 (length valid_initial)) cs /\
    Forall (fun c => call_key c = api_keys (callee c)) cs.
Proof.
  intros Hnd Hlen.
  assert (Hk : length (keys valid_initial) = length valid_initial)
    by apply length_map.
  destruct (review_loop valid_initial (keys valid_initial) Hnd
              ltac:(lia) ltac:(auto) (keys valid_initial) [] [] w
              eq_refl eq_refl) as (cs & Hrun & Hl & Hf2 & Hf).
  exists cs. unfold review_stage, enumerate.
  simpl in Hrun, Hf2. rewrite Hk in *. auto.
Qed.

Lemma keys_review_entries (authors : list AI) cs :
  length cs = length authors ->
  keys (map review_entry (combine authors cs)) = authors.
Proof.
  revert cs. induction authors as [|a rest IH]; intros [|c cs]; simpl;
    try discriminate; [reflexivity|].
  intros [= Hl]. f_equal. now apply IH.
Qed.

Lemma review_entries_nth reviewer_ids (authors : list AI) :
  forall start cs j a,
    Forall2 (fun i c => assigned_reviewer reviewer_ids i = Some (callee c))
      (seq start (length authors)) cs ->
    nth_error authors j = Some a ->
    exists c,
      nth_error cs j = Some c /\
      nth_error (map review_entry (combine authors cs)) j
      = Some (review_entry (a, c)) /\
      assigned_reviewer reviewer_ids (start + j) = Some (callee c).
Proof.
  induction authors as [|a0 rest IH]; intros start cs j a Hf2 Hj.
  - destruct j; discriminate.
  - simpl in Hf2. inversion Hf2 as [|i c ? cs' Hc Hrest]; subst.
    destruct j as [|j]; simpl in Hj.
    + injection Hj as ->. exists c. rewrite Nat.add_0_r. auto.
    + destruct (IH (S start) cs' j a Hrest Hj) as (c' & H1 & H2 & H3).
      exists c'. simpl. rewrite Nat.add_succ_r. auto.
Qed.

(** C2: over n >= 2 authors with valid initial answers (the keys of
    [valid_initial], in order), the review round stores exactly one
    review per author, and the reviewer of the author at index [i] is the
    author at index [(i + 1) mod n], who is never the author itself; the
    review call is made to that reviewer. *)
Theorem C2_round_robin_pairing valid_initial w :
  NoDup (keys valid_initial) -> 2 <= length valid_initial ->
  exists reviews cs,
    review_stage valid_initial w =
    (Val reviews, mkWorld (calls w ++ cs) (screen w)) /\
    keys reviews = keys valid_initial /\
    map callee cs = map (fun entry => fst (snd entry)) reviews /\
    forall i author_id,
      nth_error (keys valid_initial) i = Some author_id ->
      exists reviewer_id review_text,
        nth_error reviews i = Some (author_id, (reviewer_id, review_text)) /\
        dict_get AI_eq_dec author_id reviews
        = Some (reviewer_id, review_text) /\
        nth_error (keys valid_initial) ((i + 1) mod length valid_initial)
        = Some reviewer_id /\
        reviewer_id <> author_id.
Proof.
  intros Hnd Hlen.
  destruct (review_stage_run valid_initial w Hnd Hlen)
    as (cs & Hrun & Hl & Hf2 & _).
  assert (Hk : length (keys valid_initial) = length valid_initial)
    by apply length_map.
  set (reviews := map review_entry (combine (keys valid_initial) cs)) in *.
  assert (Hkeys : keys reviews = keys valid_initial)
    by (apply keys_review_entries; congruence).
  exists reviews, cs. repeat split; [exact Hrun | exact Hkeys | |].
  - subst reviews. rewrite map_map. simpl.
    rewrite <- Hk in Hl. clear - Hl. revert cs Hl.
    induction (keys valid_initial) as [|a rest IH]; intros [|c cs]; simpl;
      try discriminate; [reflexivity|].
    intros [= Hl]. f_equal. now apply IH.
  - intros i a Hi. rewrite <- Hk in Hf2.
    destruct (review_entries_nth _ _ 0 cs i a Hf2 Hi) as (c & _ & Hnth & Hr).
    fold reviews in Hnth. simpl in Hr. unfold assigned_reviewer in Hr.
    rewrite Hk in Hr.
    exists (callee c), (review_text_of (outcome c)).
    change (a, (callee c, review_text_of (outcome c)))
      with (review_entry (a, c)).
    repeat split; [exact Hnth | | exact Hr |].
    + apply dict_get_In; [now rewrite Hkeys|].
      eapply nth_error_In, Hnth.
    + intros Heq. rewrite Heq, <- Hi in Hr.
      apply (proj1 (NoDup_nth_error _) Hnd) in Hr.
      * revert Hr. apply next_index_differs; [lia|].
        rewrite <- Hk. apply nth_error_Some. congruence.
      * rewrite Hk. apply Nat.mod_upper_bound. lia.
Qed.

(** *** Round 3 *)

Lemma world_eta w : mkWorld (calls w ++ []) (screen w) = w.
Proof. rewrite app_nil_r. now destruct w. Qed.

(** One pass of the revision loop that does not raise. *)
Lemma revise_body_val valid_initial reviews acc a w revised w' :
  revise_body valid_initial reviews acc a w = (Val revised, w') ->
  exists step v,
    revision_of valid_initial reviews a step v /\
    revised = dict_set AI_eq_dec a v acc /\
    w' = mkWorld (calls w ++ calls_of [step]) (screen w).
Proof.
  unfold revise_body, keep_initial, dict_mem, getitem.
  destruct (dict_get AI_eq_dec a reviews) as [[r [t|]]|] eqn:Hrev; monad.
  - destruct (dict_get AI_eq_dec a valid_initial) as [v0|] eqn:Hv0;
      [|destruct (Py.str_in "❌" t); discriminate].
    destruct (Py.str_in "❌" t) eqn:Hmark.
    + intros [= <- <-]. exists None, v0. rewrite world_eta.
      split; [|auto]. eapply kept_after_failed_review; eauto.
    + set (c := mkCall a (api_keys a) (revise_prompt v0 r t)
                  (vendor (calls w) a (api_keys a) (revise_prompt v0 r t))).
      destruct (vendor (calls w) a (api_keys a) (revise_prompt v0 r t))
        as [v|msg] eqn:Ho; simpl; intros [= <- <-].
      * exists (Some c), v. split; [|auto].
        eapply revised_by_call; eauto.
      * exists (Some c), v0. split; [|auto].
        eapply kept_after_failed_call with (msg := msg); eauto.
  - discriminate.
  - destruct (dict_get AI_eq_dec a valid_initial) as [v0|] eqn:Hv0;
      [|discriminate].
    intros [= <- <-]. exists None, v0. rewrite world_eta.
    split; [|auto]. now apply kept_without_review.
Qed.

Lemma revise_loop valid_initial reviews : forall authors acc w revised w',
  NoDup (keys acc ++ authors) ->
  for_each (revise_body valid_initial reviews) authors acc w
  = (Val revised, w') ->
  exists steps,
    Forall2 (fun a st => revision_of valid_initial reviews a (fst st) (snd st))
      authors steps /\
    revised = acc ++ combine authors (map snd steps) /\
    w' = mkWorld (calls w ++ calls_of (map fst steps)) (screen w).
Proof.
  induction authors as [|a rest IH]; intros acc w revised w' Hnd; simpl.
  - intros [= <- <-]. exists []. simpl. rewrite app_nil_r, world_eta. auto.
  - unfold bind.
    destruct (revise_body valid_initial reviews acc a w) as [[acc1|e] w1] eqn:Hb;
      [|discriminate].
    intros Hrest.
    destruct (revise_body_val _ _ _ _ _ _ _ Hb) as (step & v & Hstep & -> & ->).
    assert (Hfresh : ~ In a (keys acc)).
    { apply NoDup_remove_2 in Hnd. intros Hp. apply Hnd, in_or_app. now left. }
    rewrite dict_set_fresh in Hrest by assumption.
    apply IH in Hrest.
    2:{ rewrite keys_app. simpl. now rewrite <- app_assoc. }
    destruct Hrest as (steps & Hf2 & -> & ->).
    exists ((step, v) :: steps). simpl.
    split; [constructor; assumption|].
    rewrite <- !app_assoc. simpl. split; [reflexivity|].
    f_equal. destruct step; simpl; now rewrite <- ?app_assoc, ?app_nil_r.
Qed.

(** Where round 3 does not raise, it stores one entry per author, in the
    order of [valid_initial]. *)
Lemma revise_stage_val valid_initial reviews w revised w' :
  NoDup (keys valid_initial) ->
  revise_stage valid_initial reviews w = (Val revised, w') ->
  exists steps,
    Forall2 (fun a st => revision_of valid_initial reviews a (fst st) (snd st))
      (keys valid_initial) steps /\
    revised = combine (keys valid_initial) (map snd steps) /\
    w' = mkWorld (calls w ++ calls_of (map fst steps)) (screen w).
Proof.
  intros Hnd Hrun. apply revise_loop in Hrun; [exact Hrun | exact Hnd].
Qed.

(** A pass of the revision loop raises exactly on a review text that is
    [None]. *)
Lemma revise_body_cases valid_initial reviews acc a w :
  In a (keys valid_initial) ->
  match dict_get AI_eq_dec a reviews with
  | Some (_, None) =>
      revise_body valid_initial reviews acc a w = (Exit (Uncaught TypeError), w)
  | _ =>
      exists revised w',
        revise_body valid_initial reviews acc a w = (Val revised, w')
  end.
Proof.
  intros Hin.
  destruct (dict_get_In_keys AI_eq_dec a valid_initial Hin) as [v0 Hv0].
  unfold revise_body, keep_initial, dict_mem, getitem.
  destruct (dict_get AI_eq_dec a reviews) as [[r [t|]]|] eqn:Hrev;
    rewrite ?Hv0; monad; [|reflexivity|eauto].
  destruct (Py.str_in "❌" t); [eauto|].
  destruct (vendor (calls w) a (api_keys a) (revise_prompt v0 r t)); eauto.
Qed.

Lemma revise_loop_raises valid_initial reviews : forall authors acc w,
  (forall a, In a authors -> In a (keys valid_initial)) ->
  (exists a r, In a authors /\
               dict_get AI_eq_dec a reviews = Some (r, None)) ->
  exists w',
    for_each (revise_body valid_initial reviews) authors acc w
    = (Exit (Uncaught TypeError), w').
Proof.
  induction authors as [|a0 rest IH]; intros acc w Hsub (a & r & Hin & Hnone);
    [destruct Hin|].
  pose proof (revise_body_cases valid_initial reviews acc a0 w
                (Hsub a0 (or_introl eq_refl))) as Hcase.
  cbn [for_each].
  destruct (dict_get AI_eq_dec a0 reviews) as [[r0 [t|]]|] eqn:Hrev.
  - destruct Hcase as (acc1 & w1 & Hb). rewrite (bind_val _ _ _ _ _ Hb).
    apply IH; [intros; apply Hsub; now right|].
    destruct Hin as [->|Hin]; [congruence | eauto].
  - rewrite (bind_exit _ _ _ _ _ Hcase). eauto.
  - destruct Hcase as (acc1 & w1 & Hb). rewrite (bind_val _ _ _ _ _ Hb).
    apply IH; [intros; apply Hsub; now right|].
    destruct Hin as [->|Hin]; [congruence | eauto].
Qed.

(** Round 3 ends in an uncaught [TypeError] as soon as the review of one
    author is [None]; no entry of [revised_responses] is left then. *)
Lemma revise_stage_raises_on_None valid_initial reviews w a r :
  In a (keys valid_initial) ->
  dict_get AI_eq_dec a reviews = Some (r, None) ->
  exists w',
    revise_stage valid_initial reviews w = (Exit (Uncaught TypeError), w').
Proof.
  intros Hin Hnone. apply revise_loop_raises; eauto.
Qed.

Lemma revise_loop_returns valid_initial reviews : forall authors acc w,
  (forall a, In a authors -> In a (keys valid_initial)) ->
  (forall a r, In a authors ->
               dict_get AI_eq_dec a reviews <> Some (r, None)) ->
  exists revised w',
    for_each (revise_body valid_initial reviews) authors acc w
    = (Val revised, w').
Proof.
  induction authors as [|a0 rest IH]; intros acc w Hsub Hall; cbn [for_each].
  - eexists _, _. reflexivity.
  - pose proof (revise_body_cases valid_initial reviews acc a0 w
                  (Hsub a0 (or_introl eq_refl))) as Hcase.
    pose proof (Hall a0) as Ha0.
    destruct (dict_get AI_eq_dec a0 reviews) as [[r0 [t|]]|] eqn:Hrev.
    + destruct Hcase as (acc1 & w1 & Hb). rewrite (bind_val _ _ _ _ _ Hb).
      apply IH; intros; [apply Hsub | apply Hall]; now right.
    + exfalso. apply (Ha0 r0); [now left | reflexivity].
    + destruct Hcase as (acc1 & w1 & Hb). rewrite (bind_val _ _ _ _ _ Hb).
      apply IH; intros; [apply Hsub | apply Hall]; now right.
Qed.

(** Where no review is [None], round 3 returns, and then every author
    keeps an entry: the initial answer where there is no review, where
    the review failed and where the revision call raised, and what the
    revision call returned otherwise. *)
Lemma revise_stage_keeps_every_author valid_initial reviews w :
  NoDup (keys valid_initial) ->
  (forall a r, In a (keys valid_initial) ->
               dict_get AI_eq_dec a reviews <> Some (r, None)) ->
  exists steps,
    revise_stage valid_initial reviews w =
    (Val (combine (keys valid_initial) (map snd steps)),
     mkWorld (calls w ++ calls_of (map fst steps)) (screen w)) /\
    Forall2 (fun a st => revision_of valid_initial reviews a (fst st) (snd st))
      (keys valid_initial) steps.
Proof.
  intros Hnd Hall.
  destruct (revise_loop_returns valid_initial reviews (keys valid_initial)
              [] w ltac:(auto) Hall) as (revised & w' & Hrun).
  destruct (revise_stage_val _ _ _ _ _ Hnd Hrun) as (steps & Hf2 & -> & ->).
  exists steps. split; [exact Hrun | exact Hf2].
Qed.

Lemma keys_combine_steps (authors : list AI)
    (steps : list (option (Call AI) * option string)) P :
  Forall2 P authors steps ->
  keys (combine authors (map snd steps)) = authors.
Proof.
  induction 1; simpl; [reflexivity | f_equal; assumption].
Qed.

(** *** The deep mode *)

Lemma deep_mode_too_few ui available_ais w :
  length available_ais < 2 ->
  deep_mode ui available_ais w =
  (Exit Stopped,
   mkWorld (calls w)
     (screen w
      ++ [Markdown (Some "### 📋 심층 토론 모드: 상호 비판 (Cross-Review)");
          Warning "⚠️ 심층 토론 모드에는 최소 2개 이상의 AI가 필요합니다. API 키를 더 추가하세요."])).
Proof.
  intros Hlen. unfold deep_mode, keys. rewrite length_map.
  apply Nat.ltb_lt in Hlen. rewrite Hlen. monad.
  now rewrite <- app_assoc.
Qed.

Lemma deep_mode_run ui available_ais w :
  NoDup (keys available_ais) -> 2 <= length available_ais ->
  deep_mode ui available_ais w =
  cross_review
    (dict_filter valid_answer
       (map entry_of (initial_calls ui available_ais (calls w))))
    (deep_page ui available_ais w).
Proof.
  intros Hnd Hlen. unfold deep_mode, keys. rewrite length_map.
  apply Nat.ltb_ge in Hlen. rewrite Hlen.
  erewrite bind_val by reflexivity.
  erewrite bind_val by reflexivity.
  erewrite bind_val by reflexivity.
  erewrite bind_val by (apply initial_stage_run; exact Hnd).
  erewrite bind_val by apply show_answers_run.
  unfold deep_page. simpl. now rewrite <- !app_assoc.
Qed.

(** Below two valid answers the deep mode writes a warning and keeps the
    valid answers as they are. *)
Lemma cross_review_degrades valid_initial w :
  length valid_initial < 2 ->
  cross_review valid_initial w =
  (Val valid_initial,
   mkWorld (calls w)
     (screen w ++ [Warning "유효한 답변이 2개 미만입니다. 심층 토론을 진행할 수 없습니다."])).
Proof.
  intros Hlen. unfold cross_review. apply Nat.ltb_lt in Hlen.
  now rewrite Hlen.
Qed.

(** From two valid answers on, and where round 3 does not raise, the deep
    mode reviews and revises; every author has an entry after round 3. *)
Lemma cross_review_val valid_initial w valid_responses w' :
  NoDup (keys valid_initial) -> 2 <= length valid_initial ->
  cross_review valid_initial w = (Val valid_responses, w') ->
  exists reviews review_calls steps,
    let revised_responses := combine (keys valid_initial) (map snd steps) in
    review_stage valid_initial
      (mkWorld (calls w)
         (screen w ++ [Markdown (Some "#### 2단계: 상호 검토 (논리적 오류·빠진 데이터 지적)")]))
    = (Val reviews,
       mkWorld (calls w ++ review_calls)
         (screen w ++ [Markdown (Some "#### 2단계: 상호 검토 (논리적 오류·빠진 데이터 지적)")])) /\
    reviews = map review_entry (combine (keys valid_initial) review_calls) /\
    length review_calls = length valid_initial /\
    Forall2 (fun a st => revision_of valid_initial reviews a (fst st) (snd st))
      (keys valid_initial) steps /\
    valid_responses = dict_filter valid_revision revised_responses /\
    keys revised_responses = keys valid_initial /\
    calls w' = calls w ++ review_calls ++ calls_of (map fst steps).
Proof.
  intros Hnd Hlen. unfold cross_review.
  apply Nat.ltb_ge in Hlen as Hltb. rewrite Hltb.
  erewrite bind_val by reflexivity.
  set (w1 := mkWorld (calls w) _).
  destruct (review_stage_run valid_initial w1 Hnd Hlen)
    as (rcs & Hrev & Hrl & _).
  rewrite (bind_val _ _ _ _ _ Hrev).
  destruct (show_reviews_run
              (map review_entry (combine (keys valid_initial) rcs))
              (mkWorld (calls w1 ++ rcs) (screen w1))) as [ws Hshow].
  rewrite (bind_val _ _ _ _ _ Hshow).
  erewrite bind_val by reflexivity.
  unfold bind at 1.
  destruct (revise_stage _ _ _) as [[revised|e] w2] eqn:Hrun; [|discriminate].
  apply revise_stage_val in Hrun; [|exact Hnd].
  destruct Hrun as (steps & Hf2 & -> & ->).
  rewrite (bind_val _ _ _ _ _ (show_answers_run _ _ _ _)).
  intros [= <- <-].
  exists (map review_entry (combine (keys valid_initial) rcs)), rcs, steps.
  simpl. repeat split; auto.
  - eapply keys_combine_steps, Hf2.
  - now rewrite <- app_assoc.
Qed.

(** *** The report *)

Lemma synthesis_nothing_valid ui w :
  synthesis ui [] w =
  (Exit Stopped,
   mkWorld (calls w)
     (screen w ++ [Markdown (Some "---");
                   Warning "API 호출에 오류가 있어 Consensus Report를 생성할 수 없습니다."])).
Proof. unfold synthesis. monad. now rewrite <- app_assoc. Qed.

Lemma synthesis_run ui valid_responses synthesizer_id v rest w :
  valid_responses = (synthesizer_id, v) :: rest ->
  let prompt := consensus_prompt ui valid_responses in
  let o := vendor (calls w) synthesizer_id (api_keys synthesizer_id) prompt in
  synthesis ui valid_responses w =
  (Val tt,
   mkWorld (calls w ++ [mkCall synthesizer_id (api_keys synthesizer_id) prompt o])
     (screen w
      ++ [Markdown (Some "---");
          Markdown (Some "### 📊 Consensus Report (최종 종합)");
          match o with
          | Returned consensus => Markdown consensus
          | Raised e => Error ("Consensus Report 생성 중 오류: " ++ e)%string
          end])).
Proof.
  intros -> prompt o. unfold synthesis. monad. fold prompt. fold o.
  destruct o; monad; now rewrite <- !app_assoc.
Qed.

(** Past its two guards, the script runs the rounds and then the report. *)
Lemma analyze_run is_deep_mode ui available_ais w :
  Py.nonempty (strip ui) = true -> available_ais <> [] ->
  analyze is_deep_mode ui available_ais w =
  bind (rounds is_deep_mode ui available_ais) (synthesis ui) w.
Proof.
  intros Hui Hne. unfold analyze. rewrite Hui.
  destruct available_ais; [congruence|]. reflexivity.
Qed.

Lemma plain_mode_nobody ui w :
  exists e w', plain_mode ui [] w = (Exit e, w').
Proof. eexists _, _. reflexivity. Qed.

(** The rounds return nothing without an AI. *)
Lemma rounds_val_nonempty is_deep_mode ui available_ais w valid w1 :
  rounds is_deep_mode ui available_ais w = (Val valid, w1) ->
  available_ais <> [].
Proof.
  intros Hrun ->. destruct is_deep_mode; unfold rounds in Hrun; cbn [negb] in Hrun.
  - rewrite deep_mode_too_few in Hrun by (simpl; lia). discriminate.
  - destruct (plain_mode_nobody ui w) as (e & w' & H). congruence.
Qed.

Lemma filter_filter_implied {A} (f g : A -> bool) l :
  (forall x, In x l -> f x = true -> g x = true) ->
  filter f (filter g l) = filter f l.
Proof.
  induction l as [|x l IH]; simpl; intros H; [reflexivity|].
  destruct (g x) eqn:Eg; simpl.
  - destruct (f x); [f_equal|]; apply IH; auto.
  - destruct (f x) eqn:Ef.
    + rewrite H in Eg by auto. discriminate.
    + apply IH; auto.
Qed.

Lemma find_hd_filter {A} (f : A -> bool) l :
  find f l = hd_error (filter f l).
Proof.
  induction l as [|x l IH]; simpl; [reflexivity|]. now destruct (f x).
Qed.

(** The valid answers keep the order of the configured AIs. *)
Lemma rounds_keys is_deep_mode ui available_ais w valid w1 :
  NoDup (keys available_ais) ->
  rounds is_deep_mode ui available_ais w = (Val valid, w1) ->
  keys valid =
  filter (fun a => dict_mem AI_eq_dec a valid) (keys available_ais).
Proof.
  intros Hnd Hrun.
  pose proof (rounds_val_nonempty _ _ _ _ _ _ Hrun) as Hne.
  set (cs := initial_calls ui available_ais (calls w)).
  assert (Hkeys : keys (map entry_of cs) = keys available_ais)
    by (subst cs; now rewrite keys_entries, initial_calls_callee).
  assert (Hnd' : NoDup (keys (map entry_of cs))) by now rewrite Hkeys.
  destruct is_deep_mode; unfold rounds in Hrun; cbn [negb] in Hrun.
  - destruct (Nat.lt_ge_cases (length available_ais) 2) as [Hlt|Hge].
    { rewrite deep_mode_too_few in Hrun by assumption. discriminate. }
    rewrite deep_mode_run in Hrun by assumption. fold cs in Hrun.
    set (valid_initial := dict_filter valid_answer (map entry_of cs)) in *.
    assert (Hvi : keys valid_initial =
                  filter (fun a => dict_mem AI_eq_dec a valid_initial)
                    (keys available_ais))
      by (rewrite <- Hkeys; now apply keys_filter_mem).
    assert (Hndvi : NoDup (keys valid_initial))
      by now apply NoDup_keys_filter.
    destruct (Nat.lt_ge_cases (length valid_initial) 2) as [Hlt|Hge2].
    + rewrite cross_review_degrades in Hrun by assumption.
      injection Hrun as <- _. exact Hvi.
    + destruct (cross_review_val _ _ _ _ Hndvi Hge2 Hrun)
        as (reviews & rcs & steps & _ & _ & _ & _ & -> & Hk & _).
      rewrite (keys_filter_mem AI_eq_dec) by now rewrite Hk.
      set (kept := fun a => dict_mem AI_eq_dec a _).
      assert (Himp : forall a, kept a = true ->
                dict_mem AI_eq_dec a valid_initial = true).
      { intros a Ha. apply dict_mem_In_keys.
        apply dict_mem_In_keys, keys_filter_incl in Ha.
        now rewrite Hk in Ha. }
      rewrite Hk, Hvi. apply filter_filter_implied. auto.
  - destruct (plain_mode_run ui available_ais w Hnd Hne) as [ws Hp].
    rewrite Hp in Hrun. injection Hrun as <- _.
    rewrite <- Hkeys. now apply keys_filter_mem.
Qed.

(** In the deep mode, a review call that returns [None] ends the run in
    round 3, whatever the other calls do. *)
Lemma cross_review_raises_on_None_review valid_initial w :
  NoDup (keys valid_initial) -> 2 <= length valid_initial ->
  (exists reviews w1 c,
     review_stage valid_initial
       (mkWorld (calls w)
          (screen w ++ [Markdown (Some "#### 2단계: 상호 검토 (논리적 오류·빠진 데이터 지적)")]))
     = (Val reviews, w1) /\
     In c (skipn (length (calls w)) (calls w1)) /\
     outcome c = Returned None) ->
  exists w', cross_review valid_initial w = (Exit (Uncaught TypeError), w').
Proof.
  intros Hnd Hlen (reviews & w1 & c & Hrev & Hc & Hnone).
  set (w0 := mkWorld (calls w) _) in Hrev.
  destruct (review_stage_run valid_initial w0 Hnd Hlen)
    as (rcs & Hrun & Hrl & _).
  rewrite Hrun in Hrev. injection Hrev as <- <-.
  simpl in Hc. rewrite skipn_app, skipn_all, Nat.sub_diag in Hc. simpl in Hc.
  assert (Hk : length (keys valid_initial) = length rcs)
    by (unfold keys; rewrite length_map; congruence).
  assert (Hpair : exists a, In (a, c) (combine (keys valid_initial) rcs)).
  { clear - Hk Hc. revert rcs Hk Hc.
    induction (keys valid_initial) as [|a rest IH]; intros [|c0 rcs]; simpl;
      try discriminate; [tauto|].
    intros [= Hk] [->|Hin]; [eauto|].
    destruct (IH rcs Hk Hin) as [a' Ha']. eauto. }
  destruct Hpair as [a Ha].
  set (reviews := map review_entry (combine (keys valid_initial) rcs)) in *.
  assert (Hkeys : keys reviews = keys valid_initial)
    by (apply keys_review_entries; congruence).
  assert (Hget : dict_get AI_eq_dec a reviews = Some (callee c, None)).
  { apply dict_get_In; [now rewrite Hkeys|].
    apply (in_map review_entry) in Ha. unfold review_entry in Ha at 1.
    simpl in Ha. now rewrite Hnone in Ha. }
  assert (Hin : In a (keys valid_initial)).
  { rewrite <- Hkeys. apply dict_mem_In_keys with (K_eq_dec := AI_eq_dec).
    unfold dict_mem. now rewrite Hget. }
  unfold cross_review. apply Nat.ltb_ge in Hlen as Hltb. rewrite Hltb.
  erewrite bind_val by reflexivity. fold w0.
  rewrite (bind_val _ _ _ _ _ Hrun).
  destruct (show_reviews_run reviews (mkWorld (calls w0 ++ rcs) (screen w0)))
    as [ws Hshow].
  rewrite (bind_val _ _ _ _ _ Hshow).
  erewrite bind_val by reflexivity.
  edestruct (revise_stage_raises_on_None valid_initial reviews) as [w' Hraise];
    [exact Hin | exact Hget |].
  erewrite bind_exit by exact Hraise. eauto.
Qed.

(** C1 (amended): in the plain mode, for every non-empty mapping of AIs,
    round 1 makes one call per AI and stores exactly one entry per AI, in
    the order of the mapping, whatever the other calls of the batch did.
    The entry of an AI depends on its own call alone: a call that raised
    leaves an entry that the filter drops, and a call that returned a text
    which is not empty and does not contain the marker [❌ 오류 발생] leaves
    an entry that the filter keeps, with that text.  No other entry is
    kept. *)
Theorem C1_plain_round_one_entry_per_agent ui available_ais w :
  NoDup (keys available_ais) -> available_ais <> [] ->
  let cs := initial_calls ui available_ais (calls w) in
  let responses := map entry_of cs in
  let valid_responses := dict_filter valid_answer responses in
  initial_stage ui available_ais w =
  (Val responses, mkWorld (calls w ++ cs) (screen w)) /\
  (exists ws, plain_mode ui available_ais w =
              (Val valid_responses, mkWorld (calls w ++ cs) (screen w ++ ws))) /\
  map callee cs = keys available_ais /\
  keys responses = keys available_ais /\
  forall c, In c cs ->
    dict_get AI_eq_dec (callee c) responses = Some (stored (outcome c)) /\
    (forall msg, outcome c = Raised msg ->
       dict_mem AI_eq_dec (callee c) valid_responses = false) /\
    (forall s, outcome c = Returned (Some s) -> s <> EmptyString ->
       Py.str_in "❌ 오류 발생" s = false ->
       dict_get AI_eq_dec (callee c) valid_responses = Some (Some s)) /\
    (dict_mem AI_eq_dec (callee c) valid_responses = true ->
       exists s, outcome c = Returned (Some s) /\ s <> EmptyString /\
                 Py.str_in "❌ 오류 발생" s = false).
Proof.
  intros Hnd Hne cs responses valid_responses.
  assert (Hkeys : keys responses = keys available_ais).
  { subst responses cs. now rewrite keys_entries, initial_calls_callee. }
  assert (Hnd' : NoDup (keys responses)) by now rewrite Hkeys.
  split; [apply initial_stage_run; assumption|].
  split; [apply plain_mode_run; assumption|].
  split; [apply initial_calls_callee|].
  split; [exact Hkeys|].
  intros c Hc.
  assert (Hget : dict_get AI_eq_dec (callee c) responses
                 = Some (stored (outcome c))).
  { apply dict_get_In; [exact Hnd'|]. now apply (in_map entry_of) in Hc. }
  assert (Hvalid : dict_get AI_eq_dec (callee c) valid_responses =
                   if valid_answer (stored (outcome c))
                   then Some (stored (outcome c)) else None).
  { subst valid_responses. now rewrite dict_get_filter, Hget. }
  split; [exact Hget|]. unfold dict_mem. rewrite Hvalid.
  repeat split.
  - intros msg ->. reflexivity.
  - intros s Ho Hs Hm.
    assert (Hv : valid_answer (stored (outcome c)) = true)
      by (apply valid_answer_stored; eauto).
    rewrite Hv, Ho. reflexivity.
  - destruct (valid_answer (stored (outcome c))) eqn:Hv; [|discriminate].
    intros _. now apply valid_answer_stored.
Qed.

(** C3 (amended): in the deep mode with at least two configured AIs, when
    exactly one initial answer is valid the session degrades.  After
    round 1 it makes no review call and no revision call and writes no
    review and no revision to the page, only the warning; the one call it
    still makes is the synthesis call, to the AI that holds the valid
    answer, with a prompt built from that answer alone.  The run does not
    stop early: it shows the report when that call returns, and the error
    of that call when it raises. *)
Theorem C3_deep_mode_degrades_to_synthesis
    ui available_ais w initial_responses w1 a v :
  Py.nonempty (strip ui) = true ->
  NoDup (keys available_ais) -> 2 <= length available_ais ->
  initial_stage ui available_ais
    (mkWorld (calls w)
       (screen w
        ++ [Markdown (Some "### 📋 심층 토론 모드: 상호 비판 (Cross-Review)");
            Markdown (Some "#### 1단계: 각 AI의 초기 답변")]))
  = (Val initial_responses, w1) ->
  dict_filter valid_answer initial_responses = [(a, v)] ->
  let prompt := consensus_prompt ui [(a, v)] in
  let o := vendor (calls w1) a (api_keys a) prompt in
  run true ui available_ais w =
  (Finished,
   mkWorld (calls w1 ++ [mkCall a (api_keys a) prompt o])
     (screen w1
      ++ answer_widgets "초기 답변" false initial_responses
      ++ [Warning "유효한 답변이 2개 미만입니다. 심층 토론을 진행할 수 없습니다.";
          Markdown (Some "---");
          Markdown (Some "### 📊 Consensus Report (최종 종합)");
          match o with
          | Returned consensus => Markdown consensus
          | Raised e => Error ("Consensus Report 생성 중 오류: " ++ e)%string
          end])).
Proof.
  intros Hui Hnd Hlen Hinit Hone prompt o.
  rewrite initial_stage_run in Hinit by assumption.
  injection Hinit as <- <-. cbn [calls screen] in *.
  set (cs := initial_calls ui available_ais (calls w)) in *.
  assert (Hne : available_ais <> [])
    by (destruct available_ais; simpl in *; [lia | discriminate]).
  unfold run. rewrite analyze_run by assumption.
  unfold rounds. cbn [negb].
  erewrite bind_val.
  2:{ rewrite deep_mode_run by assumption. fold cs. rewrite Hone.
      apply cross_review_degrades. simpl. lia. }
  erewrite synthesis_run by reflexivity.
  unfold deep_page. fold cs. simpl. rewrite <- !app_assoc. reflexivity.
Qed.

(** C6: when the rounds leave no valid answer, the script writes the
    warning and stops; the calls made are those of the rounds, so no
    synthesis call is made. *)
Theorem C6_no_valid_answer_no_synthesis is_deep_mode ui available_ais w w1 :
  Py.nonempty (strip ui) = true ->
  rounds is_deep_mode ui available_ais w = (Val [], w1) ->
  run is_deep_mode ui available_ais w =
  (Stopped,
   mkWorld (calls w1)
     (screen w1 ++ [Markdown (Some "---");
                    Warning "API 호출에 오류가 있어 Consensus Report를 생성할 수 없습니다."])).
Proof.
  intros Hui Hrun.
  pose proof (rounds_val_nonempty _ _ _ _ _ _ Hrun) as Hne.
  unfold run. rewrite analyze_run by assumption.
  rewrite (bind_val _ _ _ _ _ Hrun), synthesis_nothing_valid. reflexivity.
Qed.

(** The pick of the synthesizer: when the rounds hand on at least one
    answer, the synthesis call goes to the first of the configured AIs, in
    their order, that has an entry among the answers handed on.  It is the
    only call made after the rounds: when it returns, the run ends with
    the report on the page; when it raises, the run ends with the message
    of the exception on the page, and no other AI is asked.  Which answers
    the rounds hand on is another matter: [plain_mode_run] and
    [cross_review_val] say what each filter keeps. *)
Lemma synthesis_goes_to_first_kept_agent
    is_deep_mode ui available_ais w valid_responses w1 :
  Py.nonempty (strip ui) = true ->
  NoDup (keys available_ais) ->
  rounds is_deep_mode ui available_ais w = (Val valid_responses, w1) ->
  valid_responses <> [] ->
  exists synthesizer_id,
    find (fun a => dict_mem AI_eq_dec a valid_responses) (keys available_ais)
    = Some synthesizer_id /\
    let prompt := consensus_prompt ui valid_responses in
    let o := vendor (calls w1) synthesizer_id (api_keys synthesizer_id) prompt in
    run is_deep_mode ui available_ais w =
    (Finished,
     mkWorld
       (calls w1 ++ [mkCall synthesizer_id (api_keys synthesizer_id) prompt o])
       (screen w1
        ++ [Markdown (Some "---");
            Markdown (Some "### 📊 Consensus Report (최종 종합)");
            match o with
            | Returned consensus => Markdown consensus
            | Raised e => Error ("Consensus Report 생성 중 오류: " ++ e)%string
            end])).
Proof.
  intros Hui Hnd Hrun Hvalid.
  pose proof (rounds_val_nonempty _ _ _ _ _ _ Hrun) as Hne.
  pose proof (rounds_keys _ _ _ _ _ _ Hnd Hrun) as Hkeys.
  destruct valid_responses as [|[s v] rest] eqn:Hv; [congruence|].
  rewrite <- Hv in *. exists s. split.
  - rewrite find_hd_filter, <- Hkeys, Hv. reflexivity.
  - intros prompt o. unfold run. rewrite analyze_run by assumption.
    rewrite (bind_val _ _ _ _ _ Hrun).
    now rewrite (synthesis_run ui valid_responses s v rest w1 Hv).
Qed.

Lemma hd_filter_entries (p : option string -> bool) (cs : list (Call AI)) :
  hd_error (dict_filter p (map entry_of cs))
  = option_map entry_of (find (fun c => p (stored (outcome c))) cs).
Proof.
  induction cs as [|c cs IH]; simpl; [reflexivity|].
  destruct (p (stored (outcome c))); [reflexivity | exact IH].
Qed.

(** The plain mode: the synthesis call goes to the AI of the first call of
    round 1, in the order of the configured AIs, that returned a text
    which is not empty and does not show the marker [❌ 오류 발생]; the
    prompt is built from the answers of all such calls. *)
Lemma plain_mode_first_valid_agent_synthesizes ui available_ais w :
  Py.nonempty (strip ui) = true ->
  NoDup (keys available_ais) ->
  let cs := initial_calls ui available_ais (calls w) in
  let valid_responses := dict_filter valid_answer (map entry_of cs) in
  valid_responses <> [] ->
  exists c ws,
    find (fun c => valid_answer (stored (outcome c))) cs = Some c /\
    let synthesizer_id := callee c in
    let prompt := consensus_prompt ui valid_responses in
    let o := vendor (calls w ++ cs) synthesizer_id (api_keys synthesizer_id)
               prompt in
    run false ui available_ais w =
    (Finished,
     mkWorld
       (calls w ++ cs
        ++ [mkCall synthesizer_id (api_keys synthesizer_id) prompt o])
       (screen w ++ ws
        ++ [Markdown (Some "---");
            Markdown (Some "### 📊 Consensus Report (최종 종합)");
            match o with
            | Returned consensus => Markdown consensus
            | Raised e => Error ("Consensus Report 생성 중 오류: " ++ e)%string
            end])).
Proof.
  intros Hui Hnd cs valid_responses Hvalid.
  assert (Hne : available_ais <> []).
  { intros ->. apply Hvalid. reflexivity. }
  destruct (plain_mode_run ui available_ais w Hnd Hne) as [ws Hp].
  fold cs in Hp. fold valid_responses in Hp.
  pose proof (hd_filter_entries valid_answer cs) as Hhd.
  fold valid_responses in Hhd.
  destruct valid_responses as [|[s v] rest] eqn:Hv; [congruence|].
  destruct (find (fun c => valid_answer (stored (outcome c))) cs) as [c|];
    [|discriminate].
  injection Hhd as -> ->.
  exists c, ws. split; [reflexivity|]. cbv zeta.
  unfold run. rewrite analyze_run by assumption.
  unfold rounds. cbn [negb]. rewrite (bind_val _ _ _ _ _ Hp).
  erewrite synthesis_run by reflexivity.
  cbn [calls screen]. now rewrite <- !app_assoc.
Qed.

(** C8: in the deep mode with fewer than two configured AIs the script
    stops on a precondition, having made no call at all: on the empty
    input, on the missing API keys, or on the deep mode's own check of the
    number of AIs. *)
Theorem C8_deep_mode_needs_two_agents ui available_ais w :
  length available_ais < 2 ->
  run true ui available_ais w =
  (Stopped,
   mkWorld (calls w)
     (screen w ++
      if negb (Py.nonempty (strip ui)) then
        [Warning "⚠️ PDF를 업로드하거나, 텍스트/질문을 입력해주세요."]
      else if negb (Py.nonempty_list available_ais) then
        [Error "❌ 최소 1개 이상의 API 키를 입력해주세요."]
      else
        [Markdown (Some "### 📋 심층 토론 모드: 상호 비판 (Cross-Review)");
         Warning "⚠️ 심층 토론 모드에는 최소 2개 이상의 AI가 필요합니다. API 키를 더 추가하세요."])).
Proof.
  intros Hlen. unfold run.
  destruct (Py.nonempty (strip ui)) eqn:Hui.
  - destruct available_ais as [|item rest] eqn:Hav.
    + unfold analyze. rewrite Hui. reflexivity.
    + rewrite <- Hav in *.
      assert (Hne : available_ais <> []) by congruence.
      rewrite analyze_run by assumption.
      unfold rounds. cbn [negb].
      rewrite (bind_exit _ _ _ _ _ (deep_mode_too_few ui available_ais w Hlen)).
      rewrite Hav. reflexivity.
  - unfold analyze. rewrite Hui. reflexivity.
Qed.

Lemma calls_of_steps {P : AI -> option (Call AI) -> option string -> Prop}
    (authors : list AI) steps c :
  Forall2 (fun a st => P a (fst st) (snd st)) authors steps ->
  In c (calls_of (map fst steps)) ->
  exists a v, In (a, v) (combine authors (map snd steps)) /\ P a (Some c) v.
Proof.
  induction 1 as [|a [step v] authors steps HP _ IH]; simpl; [tauto|].
  destruct step as [c'|]; simpl.
  - intros [->|Hin]; [exists a, v; auto|].
    destruct (IH Hin) as (a' & v' & H1 & H2). eauto.
  - intros Hin. destruct (IH Hin) as (a' & v' & H1 & H2). eauto.
Qed.

Lemma valid_answer_nothing o :
  returned_nothing o = true \/ raised o = true ->
  valid_answer (stored o) = false.
Proof.
  destruct o as [[[|c s]|]|msg]; simpl; intros [H|H];
    try discriminate; reflexivity.
Qed.

(** C10 (amended): an AI whose call returned [None] or the empty text is
    dropped by each of the three validity filters.  After round 1, in
    both modes, that is what happens to an AI whose call raised.  After
    round 3 it is not.  The author whose revision call returned [None] or
    the empty text has that as the entry of [revised_responses], and the
    filter drops the author.  The author whose revision call raised has
    the initial answer as the entry of [revised_responses], and the filter
    keeps the author on that answer where the answer does not show the
    sign [❌]. *)
Theorem C10_blank_answers_are_dropped ui available_ais w :
  NoDup (keys available_ais) ->
  let cs := initial_calls ui available_ais (calls w) in
  let valid_initial := dict_filter valid_answer (map entry_of cs) in
  (forall c, In c cs ->
     returned_nothing (outcome c) = true \/ raised (outcome c) = true ->
     dict_mem AI_eq_dec (callee c) valid_initial = false) /\
  (available_ais <> [] ->
   exists ws, plain_mode ui available_ais w =
              (Val valid_initial, mkWorld (calls w ++ cs) (screen w ++ ws))) /\
  (2 <= length available_ais ->
   deep_mode ui available_ais w =
   cross_review valid_initial (deep_page ui available_ais w)) /\
  (forall valid_responses w',
     2 <= length valid_initial ->
     cross_review valid_initial (deep_page ui available_ais w)
     = (Val valid_responses, w') ->
     exists review_calls revision_calls revised_responses,
       calls w' = calls w ++ cs ++ review_calls ++ revision_calls /\
       length review_calls = length valid_initial /\
       keys revised_responses = keys valid_initial /\
       valid_responses = dict_filter valid_revision revised_responses /\
       (forall c, In c revision_calls ->
          returned_nothing (outcome c) = true ->
          dict_get AI_eq_dec (callee c) revised_responses
          = Some (stored (outcome c)) /\
          dict_mem AI_eq_dec (callee c) valid_responses = false) /\
       (forall c, In c revision_calls ->
          raised (outcome c) = true ->
          exists s,
            dict_get AI_eq_dec (callee c) valid_initial = Some (Some s) /\
            s <> EmptyString /\
            dict_get AI_eq_dec (callee c) revised_responses = Some (Some s) /\
            (Py.str_in "❌" s = false ->
             dict_get AI_eq_dec (callee c) valid_responses = Some (Some s)))).
Proof.
  intros Hnd cs valid_initial.
  assert (Hkeys : keys (map entry_of cs) = keys available_ais)
    by (subst cs; now rewrite keys_entries, initial_calls_callee).
  assert (Hnd' : NoDup (keys (map entry_of cs))) by now rewrite Hkeys.
  assert (Hndvi : NoDup (keys valid_initial)) by now apply NoDup_keys_filter.
  repeat split.
  - intros c Hc Ho. unfold dict_mem. subst valid_initial.
    assert (Hget : dict_get AI_eq_dec (callee c) (map entry_of cs)
                   = Some (stored (outcome c))).
    { apply dict_get_In; [exact Hnd'|]. now apply (in_map entry_of) in Hc. }
    rewrite dict_get_filter, Hget by assumption.
    now rewrite valid_answer_nothing.
  - intros Hne. now apply plain_mode_run.
  - intros Hlen. now apply deep_mode_run.
  - intros valid_responses w' Hlen Hrun.
    destruct (cross_review_val _ _ _ _ Hndvi Hlen Hrun)
      as (reviews & rcs & steps & _ & _ & Hrl & Hf2 & -> & Hk & Hcalls).
    exists rcs, (calls_of (map fst steps)),
      (combine (keys valid_initial) (map snd steps)).
    split; [|split; [exact Hrl|split; [exact Hk|split; [reflexivity|]]]].
    { rewrite Hcalls. unfold deep_page. simpl. now rewrite <- app_assoc. }
    assert (Hentry : forall c, In c (calls_of (map fst steps)) ->
              exists v, revision_of valid_initial reviews (callee c) (Some c) v /\
                dict_get AI_eq_dec (callee c)
                  (combine (keys valid_initial) (map snd steps)) = Some v).
    { intros c Hc.
      destruct (calls_of_steps _ _ _ Hf2 Hc) as (a & v & Hin & Hstep).
      assert (Hcal : callee c = a) by now inversion Hstep.
      rewrite Hcal. exists v. split; [exact Hstep|].
      apply dict_get_In; [now rewrite Hk | exact Hin]. }
    split.
    + intros c Hc Ho. destruct (Hentry c Hc) as (v & Hstep & Hget).
      assert (Hv : v = stored (outcome c) /\ valid_revision v = false).
      { inversion Hstep as [| |v0 r t c0 v1 _ _ _ _ _ _ Hout
                            |v0 r t c0 msg _ _ _ _ _ _ Hout]; subst;
          rewrite Hout in Ho |- *; [|discriminate].
        split; [reflexivity|].
        destruct v as [[|ch s]|]; simpl in *; congruence. }
      destruct Hv as [Hst Hv]. split; [now rewrite Hget, Hst|].
      unfold dict_mem. rewrite dict_get_filter, Hget by now rewrite Hk.
      now rewrite Hv.
    + intros c Hc Ho. destruct (Hentry c Hc) as (v & Hstep & Hget).
      assert (Hv0 : dict_get AI_eq_dec (callee c) valid_initial = Some v).
      { inversion Hstep as [| |v0 r t c0 v1 _ _ _ _ _ _ Hout
                            |v0 r t c0 msg Hv0 _ _ _ _ _ Hout]; subst;
          rewrite Hout in Ho; [discriminate | exact Hv0]. }
      assert (Hva : valid_answer v = true).
      { unfold valid_initial in Hv0.
        rewrite dict_get_filter in Hv0 by exact Hnd'.
        destruct (dict_get AI_eq_dec (callee c) (map entry_of cs)) as [v'|];
          [|discriminate].
        destruct (valid_answer v') eqn:Hv'; congruence. }
      apply unmarked_iff in Hva as (s & -> & Hs & _).
      exists s. repeat split; auto.
      intros Hm. rewrite dict_get_filter, Hget by now rewrite Hk.
      assert (Hvr : valid_revision (Some s) = true)
        by (apply unmarked_iff; eauto).
      now rewrite Hvr.
Qed.

End Rounds.

(** ** The claims on runs of [app.py] *)

Module Runs.
Import App.

Ltac nodup := vm_compute; repeat constructor; simpl; intuition discriminate.

(** Whatever is typed in the sidebar, the dict [available_ais] of [app.py]
    has no key twice: the hypothesis [NoDup] of the theorems above holds of
    every run of the script. *)
Lemma available_ais_NoDup strip text_input :
  NoDup (keys (available_ais strip text_input)).
Proof.
  unfold available_ais. apply NoDup_keys_filter. nodup.
Qed.

(** C1, as stated, fails: in one batch of the plain mode the call of
    [gemini] returns a text that quotes the error marker and the call of
    [perplexity] returns the empty text; both calls succeeded, and neither
    AI has a valid entry. *)
Lemma C1_a_call_that_succeeds_can_be_dropped :
  map (fun c => (callee c, raised (outcome c)))
    (calls (snd (plain_mode (D := mixed) "질문" four_ais (blank mixed))))
  = [(openai, true); (gemini, false); (perplexity, false); (claude, false)] /\
  fst (plain_mode (D := mixed) "질문" four_ais (blank mixed))
  = Val [(claude, Some "핵심 기여는 세 가지입니다.")].
Proof. split; vm_compute; reflexivity. Qed.

Lemma C1_plain_round_witness :
  NoDup (keys four_ais) /\ four_ais <> [] /\
  keys (map entry_of
          (initial_calls (D := mixed) "질문" four_ais (calls (blank mixed))))
  = keys four_ais.
Proof.
  assert (H1 : NoDup (keys four_ais)) by nodup.
  assert (H2 : four_ais <> []) by discriminate.
  split; [exact H1 | split; [exact H2|]].
  destruct (C1_plain_round_one_entry_per_agent (D := mixed) "질문" four_ais
              (blank mixed) H1 H2) as (_ & _ & _ & H & _).
  exact H.
Defined.

Lemma C2_round_robin_witness :
  NoDup (keys five_answers) /\ 2 <= length five_answers /\
  exists reviews cs,
    review_stage (D := five) five_answers (blank five)
    = (Val reviews, mkWorld cs []) /\
    keys reviews = [0; 1; 2; 3; 4].
Proof.
  assert (H1 : NoDup (keys five_answers)) by nodup.
  assert (H2 : 2 <= length five_answers) by (simpl; lia).
  split; [exact H1 | split; [exact H2|]].
  destruct (C2_round_robin_pairing (D := five) five_answers (blank five) H1 H2)
    as (reviews & cs & Hrun & Hk & _).
  exists reviews, cs. split; [exact Hrun | exact Hk].
Defined.

(** The pairing at n = 2, 3 and 5. *)
Example pairing_of_two :
  fst (review_stage (D := five) (firstn 2 five_answers) (blank five))
  = Val [(0, (1, Some "답변")); (1, (0, Some "답변"))].
Proof. vm_compute. reflexivity. Qed.

Example pairing_of_three :
  fst (review_stage (D := five) (firstn 3 five_answers) (blank five))
  = Val [(0, (1, Some "답변")); (1, (2, Some "답변")); (2, (0, Some "답변"))].
Proof. vm_compute. reflexivity. Qed.

Example pairing_of_five :
  fst (review_stage (D := five) five_answers (blank five))
  = Val [(0, (1, Some "답변")); (1, (2, Some "답변")); (2, (3, Some "답변"));
         (3, (4, Some "답변")); (4, (0, Some "답변"))].
Proof. vm_compute. reflexivity. Qed.

(** C3, as stated, fails: with exactly one valid initial answer the deep
    mode degrades and calls the synthesis, but when that call raises the
    run ends on the error message, without a report. *)
Lemma C3_degraded_run_can_end_without_report :
  length (dict_filter valid_answer
            (map entry_of
               (initial_calls (D := two lone_answer) "질문" two_ais [])))
  = 1 /\
  fst (run (D := two lone_answer) true "질문" two_ais (blank _)) = Finished /\
  last (screen (snd (run (D := two lone_answer) true "질문" two_ais (blank _))))
    (Markdown None)
  = Error "Consensus Report 생성 중 오류: quota exceeded".
Proof. repeat split; vm_compute; reflexivity. Qed.

Lemma C3_degrade_witness :
  fst (run (D := two lone_answer) true "질문" two_ais (blank _)) = Finished /\
  map callee
    (calls (snd (run (D := two lone_answer) true "질문" two_ais (blank _))))
  = [openai; gemini; openai].
Proof.
  rewrite (C3_deep_mode_degrades_to_synthesis (D := two lone_answer)
             "질문" two_ais (blank _)
             [(openai, Some "초기 답변 A");
              (gemini, Some "❌ 오류 발생: rate limit")]
             (snd (initial_stage (D := two lone_answer) "질문" two_ais
                     (mkWorld []
                        [Markdown (Some "### 📋 심층 토론 모드: 상호 비판 (Cross-Review)");
                         Markdown (Some "#### 1단계: 각 AI의 초기 답변")])))
             openai (Some "초기 답변 A")).
  - split; vm_compute; reflexivity.
  - reflexivity.
  - nodup.
  - vm_compute. lia.
  - vm_compute. reflexivity.
  - vm_compute. reflexivity.
Defined.

(** C4, on a run: the code does not keep the authors when a review call
    returns [None].  Both initial answers are valid, the review of
    [openai] comes back as [None], and the revision loop ends in an
    uncaught [TypeError] on its first pass: four calls were made, the
    page ends on the heading of round 3, and no author has a revised
    entry or reaches the synthesis. *)
Lemma C4_None_review_aborts_the_revision :
  fst (run (D := two review_is_None) true "질문" two_ais (blank _))
  = Uncaught TypeError /\
  map (fun c => (callee c, outcome c))
    (calls (snd (run (D := two review_is_None) true "질문" two_ais (blank _))))
  = [(openai, Returned (Some "답변")); (gemini, Returned (Some "답변"));
     (gemini, Returned None); (openai, Returned (Some "답변"))] /\
  last (screen (snd (run (D := two review_is_None) true "질문" two_ais (blank _))))
    (Markdown None)
  = Markdown (Some "#### 3단계: 지적 반영 후 수정안").
Proof. repeat split; vm_compute; reflexivity. Qed.

(** C5, on a run: the code drops an author who fell back to a valid
    initial answer.  The initial answer of [openai] passes the first
    filter (it is not empty and does not contain [❌ 오류 발생]); its review
    raises, so round 3 keeps that answer without a call; the filter after
    round 3 looks for [❌] alone and drops it.  Only [gemini] is left for
    the synthesis. *)
Lemma C5_fallback_answer_is_dropped :
  keys (dict_filter valid_answer
          (map entry_of
             (initial_calls (D := two bullet_answer) "질문" two_ais [])))
  = [openai; gemini] /\
  map (fun c => (callee c, raised (outcome c)))
    (calls (snd (rounds (D := two bullet_answer) true "질문" two_ais (blank _))))
  = [(openai, false); (gemini, false); (gemini, true); (openai, false);
     (gemini, false)] /\
  fst (rounds (D := two bullet_answer) true "질문" two_ais (blank _))
  = Val [(gemini, Some "답변")].
Proof. repeat split; vm_compute; reflexivity. Qed.

Lemma C6_no_valid_answer_witness :
  fst (run (D := two offline) false "질문" two_ais (blank _)) = Stopped /\
  length (calls (snd (run (D := two offline) false "질문" two_ais (blank _))))
  = 2.
Proof.
  rewrite (C6_no_valid_answer_no_synthesis (D := two offline) false "질문"
             two_ais (blank _)
             (snd (rounds (D := two offline) false "질문" two_ais (blank _)))).
  - split; vm_compute; reflexivity.
  - reflexivity.
  - vm_compute. reflexivity.
Defined.

(** C7, on a run: the synthesis does not go to the first AI that holds a
    valid final answer.  [openai] comes first in the order of the AIs.
    Its initial answer passes the filter of round 1; its review raises, so
    round 3 keeps that answer as its final answer, without a call.  The
    filter after round 3 looks for the sign [❌] alone and drops it, so
    the only entry left is that of [gemini]: the synthesis call goes to
    [gemini], with a prompt built from the answer of [gemini] alone. *)
Lemma C7_first_valid_agent_is_passed_over :
  let D := two bullet_answer in
  let valid_initial :=
    dict_filter valid_answer
      (map entry_of (initial_calls (D := D) "질문" two_ais [])) in
  let reviews := [(openai, (gemini, Some "❌ 검토 오류: timeout"));
                  (gemini, (openai, Some "답변"))] in
  let w1 := deep_page (D := D) "질문" two_ais (blank D) in
  keys two_ais = [openai; gemini] /\
  valid_initial
  = [(openai, Some "한계: ❌ 표본 수가 적음"); (gemini, Some "답변")] /\
  fst (review_stage (D := D) valid_initial w1) = Val reviews /\
  fst (revise_stage (D := D) valid_initial reviews
         (snd (review_stage (D := D) valid_initial w1)))
  = Val [(openai, Some "한계: ❌ 표본 수가 적음"); (gemini, Some "답변")] /\
  valid_answer (Some "한계: ❌ 표본 수가 적음") = true /\
  fst (rounds (D := D) true "질문" two_ais (blank D))
  = Val [(gemini, Some "답변")] /\
  fst (run (D := D) true "질문" two_ais (blank D)) = Finished /\
  map (fun c => (callee c, raised (outcome c)))
    (calls (snd (run (D := D) true "질문" two_ais (blank D))))
  = [(openai, false); (gemini, false); (gemini, true); (openai, false);
     (gemini, false); (gemini, false)] /\
  option_map (fun c => call_prompt c)
    (nth_error (calls (snd (run (D := D) true "질문" two_ais (blank D)))) 5)
  = Some (consensus_prompt (D := D) "질문" [(gemini, Some "답변")]).
Proof. repeat split; vm_compute; reflexivity. Qed.

(** [synthesis_goes_to_first_kept_agent] on the plain mode with three AIs
    that all answer. *)
Example first_kept_agent_of_three :
  exists synthesizer_id,
    find (fun a => dict_mem ai_id_eq_dec a
                     [(openai, Some "답변"); (gemini, Some "답변");
                      (claude, Some "답변")])
      (keys three_ais) = Some synthesizer_id /\
    fst (run (D := three all_answer) false "질문" three_ais (blank _))
    = Finished.
Proof.
  destruct (synthesis_goes_to_first_kept_agent (D := three all_answer) false
              "질문" three_ais (blank _)
              [(openai, Some "답변"); (gemini, Some "답변"); (claude, Some "답변")]
              (snd (rounds (D := three all_answer) false "질문" three_ais
                      (blank _))))
    as (s & Hfind & Hrun).
  - reflexivity.
  - nodup.
  - vm_compute. reflexivity.
  - discriminate.
  - exists s. split; [exact Hfind|]. cbv zeta in Hrun. now rewrite Hrun.
Qed.

(** The plain mode with three AIs that all answer: the report is written
    by the first AI of the input order. *)
Example plain_mode_three_agents :
  fst (run (D := three all_answer) false "질문" three_ais (blank _))
  = Finished /\
  map callee
    (calls (snd (run (D := three all_answer) false "질문" three_ais (blank _))))
  = [openai; gemini; claude; openai] /\
  last (screen (snd (run (D := three all_answer) false "질문" three_ais (blank _))))
    (Markdown None)
  = Markdown (Some "답변").
Proof. repeat split; vm_compute; reflexivity. Qed.

Lemma C8_deep_mode_one_agent_witness :
  fst (run (D := two all_answer) true "질문" one_ai (blank _)) = Stopped /\
  calls (snd (run (D := two all_answer) true "질문" one_ai (blank _))) = [].
Proof.
  rewrite (C8_deep_mode_needs_two_agents (D := two all_answer) "질문" one_ai
             (blank _)).
  - split; reflexivity.
  - vm_compute. lia.
Defined.

(** C10, as stated, fails after round 3: a revision call that returns the
    empty text is not treated as a revision call that raises.  In two
    runs that differ in the revision call of [openai] alone, the empty
    text drops [openai] from the valid answers, and the exception keeps
    it, on its initial answer. *)
Lemma C10_empty_revision_is_not_a_failed_revision :
  fst (rounds (D := two revision_is_empty) true "질문" two_ais (blank _))
  = Val [(gemini, Some "답변")] /\
  fst (rounds (D := two revision_raises) true "질문" two_ais (blank _))
  = Val [(openai, Some "답변"); (gemini, Some "답변")] /\
  nth_error
    (map (fun c => (callee c, outcome c))
       (calls (snd (rounds (D := two revision_is_empty) true "질문" two_ais
                      (blank _))))) 4
  = Some (openai, Returned (Some EmptyString)) /\
  nth_error
    (map (fun c => (callee c, outcome c))
       (calls (snd (rounds (D := two revision_raises) true "질문" two_ais
                      (blank _))))) 4
  = Some (openai, Raised "timeout").
Proof. repeat split; vm_compute; reflexivity. Qed.

Lemma C10_blank_answers_witness :
  NoDup (keys four_ais) /\
  dict_mem ai_id_eq_dec perplexity
    (dict_filter valid_answer
       (map entry_of
          (initial_calls (D := mixed) "질문" four_ais (calls (blank mixed)))))
  = false /\
  NoDup (keys two_ais) /\
  exists valid_responses w',
    rounds (D := two revision_raises) true "질문" two_ais (blank _)
    = (Val valid_responses, w') /\
    dict_get ai_id_eq_dec openai valid_responses = Some (Some "답변").
Proof.
  assert (H : NoDup (keys four_ais)) by nodup.
  assert (H' : NoDup (keys two_ais)) by nodup.
  split; [exact H|]. split; [|split; [exact H'|]].
  - destruct (C10_blank_answers_are_dropped (D := mixed) "질문" four_ais
                (blank mixed) H) as (Hdrop & _).
    apply (Hdrop (mkCall perplexity "pplx-3" (initial_prompt "질문")
                    (Returned (Some EmptyString)))).
    + vm_compute. tauto.
    + left. reflexivity.
  - destruct (C10_blank_answers_are_dropped (D := two revision_raises) "질문"
                two_ais (blank _) H') as (_ & _ & Hdeep & Hrev).
    exists [(openai, Some "답변"); (gemini, Some "답변")].
    eexists. split.
    + unfold rounds. cbn [negb]. rewrite Hdeep by (vm_compute; lia).
      vm_compute. reflexivity.
    + destruct (Hrev [(openai, Some "답변"); (gemini, Some "답변")]
                  (snd (rounds (D := two revision_raises) true "질문" two_ais
                          (blank _))))
        as (rc & rv & revised & Hcalls & Hlen & _ & _ & _ & Hraise).
      * vm_compute. lia.
      * vm_compute. reflexivity.
      * assert (Hc : exists c, In c rv /\ callee c = openai /\
                               outcome c = Raised "timeout").
        { destruct rc as [|x [|y [|z rc]]]; try discriminate Hlen.
          vm_compute in Hcalls. injection Hcalls as _ _ <-.
          eexists. split; [left; reflexivity|]. split; reflexivity. }
        destruct Hc as (c & Hin & Hcal & Hout).
        destruct (Hraise c Hin) as (s & Hvi & _ & _ & Hkeep);
          [now rewrite Hout|].
        rewrite Hcal in Hvi, Hkeep. vm_compute in Hvi.
        injection Hvi as <-. apply Hkeep. reflexivity.
Defined.

End Runs.

(** ** Facts about strings *)

Section StringFacts.
Implicit Types (s t p n h q : string).

Lemma prefix_app s t : String.prefix s (s ++ t)%string = true.
Proof.
  induction s as [|c s IH]; simpl; [destruct t; reflexivity|].
  destruct (ascii_dec c c); congruence.
Qed.

Lemma prefix_trans p n h :
  String.prefix p n = true -> String.prefix n h = true ->
  String.prefix p h = true.
Proof.
  revert n h. induction p as [|c p IH]; intros [|c1 n] [|c2 h]; simpl;
    try discriminate; auto.
  destruct (ascii_dec c c1) as [->|]; [|discriminate].
  destruct (ascii_dec c1 c2) as [->|]; [|discriminate].
  destruct (ascii_dec c2 c2); [apply IH | congruence].
Qed.

Lemma prefix_app_l n h q :
  String.prefix n h = true -> String.prefix n (h ++ q)%string = true.
Proof.
  revert h. induction n as [|c n IH]; intros [|c1 h]; simpl;
    try discriminate; auto.
  { intros _. destruct q; reflexivity. }
  destruct (ascii_dec c c1); [apply IH | discriminate].
Qed.

Lemma str_in_unfold n h :
  Py.str_in n h =
  String.prefix n h ||
  match h with
  | EmptyString => false
  | String _ rest => Py.str_in n rest
  end.
Proof. destruct h; reflexivity. Qed.

Lemma str_in_prefix n h : String.prefix n h = true -> Py.str_in n h = true.
Proof. intros H. rewrite str_in_unfold, H. reflexivity. Qed.

Lemma str_in_refl s : Py.str_in s s = true.
Proof.
  apply str_in_prefix. induction s as [|c s IH]; simpl; [reflexivity|].
  destruct (ascii_dec c c); congruence.
Qed.

Lemma str_in_cons n c h : Py.str_in n h = true -> Py.str_in n (String c h) = true.
Proof. intros H. rewrite str_in_unfold, H. apply orb_true_r. Qed.

Lemma str_in_app_r n p h :
  Py.str_in n h = true -> Py.str_in n (p ++ h)%string = true.
Proof.
  intros H. induction p as [|c p IH]; simpl; [exact H|].
  now apply str_in_cons.
Qed.

Lemma str_in_app_l n h q :
  Py.str_in n h = true -> Py.str_in n (h ++ q)%string = true.
Proof.
  induction h as [|c h IH]; intros H.
  - destruct n; [|discriminate]. destruct q; reflexivity.
  - rewrite str_in_unfold in H. apply orb_true_iff in H as [H|H].
    + apply str_in_prefix. now apply prefix_app_l.
    + simpl append. apply str_in_cons. now apply IH.
Qed.

(** A text that shows a marker shows every prefix of the marker. *)
Lemma str_in_needle_prefix p n h :
  String.prefix p n = true -> Py.str_in n h = true -> Py.str_in p h = true.
Proof.
  intros Hp. induction h as [|c h IH]; intros H;
    rewrite str_in_unfold in H; apply orb_true_iff in H as [H|H].
  - apply str_in_prefix. eapply prefix_trans; eassumption.
  - discriminate.
  - apply str_in_prefix. eapply prefix_trans; eassumption.
  - apply str_in_cons. now apply IH.
Qed.

Lemma str_in_concat n sep part parts :
  In part parts -> Py.str_in n part = true ->
  Py.str_in n (String.concat sep parts) = true.
Proof.
  intros Hin Hn. induction parts as [|x xs IH]; [destruct Hin|].
  simpl. destruct Hin as [->|Hin].
  - destruct xs; [exact Hn | now apply str_in_app_l].
  - destruct xs as [|y ys]; [destruct Hin|].
    apply str_in_app_r, str_in_app_r. now apply IH.
Qed.

Lemma str_in_lines n l ls :
  In l ls -> Py.str_in n l = true -> Py.str_in n (Py.lines ls) = true.
Proof.
  intros Hin Hn. unfold Py.lines.
  apply str_in_concat with (part := (l ++ Py.nl)%string).
  - now apply (in_map (fun l => (l ++ Py.nl)%string)).
  - now apply str_in_app_l.
Qed.

Lemma concat_nonempty_parts sep parts :
  Forall (fun part => part <> EmptyString) parts ->
  String.concat sep parts = EmptyString -> parts = [].
Proof.
  intros Hall. destruct parts as [|x xs]; [reflexivity|].
  inversion Hall as [|? ? Hx _]; subst. simpl.
  destruct x; [congruence|]. destruct xs; discriminate.
Qed.

End StringFacts.

(** ** Whole runs: what is called, how often, and how a run can end *)

Section Accounting.
Context {D : Deployment}.
Implicit Types (w : World) (ui : string).

Ltac steps := unfold bind, ret, emit, call, exit, st_stop, throw; simpl.

(** One pass of the revision loop, however it ends: at most one call, to
    the author, with the author's key. *)
Lemma revise_body_any valid_initial reviews acc a w :
  In a (keys valid_initial) ->
  exists r cs,
    revise_body valid_initial reviews acc a w
    = (r, mkWorld (calls w ++ cs) (screen w)) /\
    length cs <= 1 /\
    Forall (fun c => callee c = a /\ call_key c = api_keys a) cs /\
    returns_or_TypeError r.
Proof.
  intros Hin.
  destruct (dict_get_In_keys AI_eq_dec a valid_initial Hin) as [v0 Hv0].
  unfold revise_body, keep_initial, dict_mem, getitem.
  destruct (dict_get AI_eq_dec a reviews) as [[r [t|]]|] eqn:Hrev;
    rewrite ?Hv0; steps.
  - destruct (Py.str_in "❌" t).
    + eexists _, []. rewrite world_eta. simpl. repeat split; auto.
    + destruct (vendor (calls w) a (api_keys a) (revise_prompt v0 r t)) eqn:Ho;
        (eexists _, [_]; split; [reflexivity|]; simpl;
         repeat split; auto).
  - eexists _, []. rewrite world_eta. simpl. repeat split; auto.
  - eexists _, []. rewrite world_eta. simpl. repeat split; auto.
Qed.

Lemma revise_loop_any valid_initial reviews : forall authors acc w,
  (forall a, In a authors -> In a (keys valid_initial)) ->
  exists r cs,
    for_each (revise_body valid_initial reviews) authors acc w
    = (r, mkWorld (calls w ++ cs) (screen w)) /\
    length cs <= length authors /\
    Forall (fun c => In (callee c) authors /\
                     call_key c = api_keys (callee c)) cs /\
    returns_or_TypeError r.
Proof.
  induction authors as [|a rest IH]; intros acc w Hsub; cbn [for_each].
  - eexists _, []. unfold ret. rewrite world_eta. simpl. repeat split; auto.
  - destruct (revise_body_any valid_initial reviews acc a w
                (Hsub a (or_introl eq_refl))) as (r & cs & Hb & Hl & Hf & Hr).
    assert (Hf' : Forall (fun c => In (callee c) (a :: rest) /\
                                   call_key c = api_keys (callee c)) cs).
    { eapply Forall_impl; [|exact Hf]. intros c [-> Hk]. simpl. auto. }
    destruct r as [acc1|e].
    + rewrite (bind_val _ _ _ _ _ Hb).
      destruct (IH acc1 (mkWorld (calls w ++ cs) (screen w)))
        as (r2 & cs2 & Hrun & Hl2 & Hf2 & Hr2).
      { intros; apply Hsub; now right. }
      exists r2, (cs ++ cs2). rewrite Hrun. simpl. rewrite <- app_assoc.
      repeat split; auto.
      * rewrite length_app. lia.
      * apply Forall_app. split; [exact Hf'|].
        eapply Forall_impl; [|exact Hf2]. intros c [H1 H2]. simpl. auto.
    + rewrite (bind_exit _ _ _ _ _ Hb).
      exists (Exit e), cs. repeat split; auto. simpl. lia.
Qed.

Lemma assigned_reviewer_In reviewer_ids i r :
  assigned_reviewer reviewer_ids i = Some r -> In r reviewer_ids.
Proof. unfold assigned_reviewer. apply nth_error_In. Qed.

(** Rounds 2 and 3, however they end: at most two calls per valid author,
    each to a valid author with that author's key. *)
Lemma cross_review_any valid_initial w :
  NoDup (keys valid_initial) ->
  exists r cs ws,
    cross_review valid_initial w
    = (r, mkWorld (calls w ++ cs) (screen w ++ ws)) /\
    length cs <= 2 * length valid_initial /\
    Forall (fun c => In (callee c) (keys valid_initial) /\
                     call_key c = api_keys (callee c)) cs /\
    returns_or_TypeError r.
Proof.
  intros Hnd.
  destruct (Nat.lt_ge_cases (length valid_initial) 2) as [Hlt|Hge].
  - rewrite cross_review_degrades by assumption.
    eexists _, [], _. rewrite app_nil_r. simpl. repeat split; auto. lia.
  - unfold cross_review. apply Nat.ltb_ge in Hge as Hltb. rewrite Hltb.
    erewrite bind_val by reflexivity.
    set (w0 := mkWorld (calls w) _).
    destruct (review_stage_run valid_initial w0 Hnd Hge)
      as (rcs & Hrev & Hrl & Hf2 & Hkey).
    rewrite (bind_val _ _ _ _ _ Hrev).
    destruct (show_reviews_run
                (map review_entry (combine (keys valid_initial) rcs))
                (mkWorld (calls w0 ++ rcs) (screen w0))) as [ws Hshow].
    rewrite (bind_val _ _ _ _ _ Hshow).
    erewrite bind_val by reflexivity.
    match goal with
    | |- context [bind (revise_stage ?vi ?rv) _ ?wx] =>
        destruct (revise_loop_any vi rv (keys vi) [] wx ltac:(auto))
          as (r & cs & Hrun & Hl & Hf & Hr)
    end.
    assert (Hrf : Forall (fun c => In (callee c) (keys valid_initial) /\
                                   call_key c = api_keys (callee c)) rcs).
    { clear - Hf2 Hkey. revert Hkey.
      induction Hf2 as [|i c idxs cs Hc _ IH]; intros Hkey; constructor.
      - split; [eapply assigned_reviewer_In, Hc|].
        now inversion Hkey.
      - apply IH. now inversion Hkey. }
    unfold revise_stage. destruct r as [revised|e].
    + rewrite (bind_val _ _ _ _ _ Hrun).
      rewrite (bind_val _ _ _ _ _ (show_answers_run _ _ _ _)).
      unfold ret. simpl. rewrite <- !app_assoc.
      eexists _, (rcs ++ cs), _. split; [reflexivity|].
      repeat split; auto.
      * rewrite length_app. unfold keys in Hl. rewrite length_map in Hl. lia.
      * apply Forall_app. auto.
    + rewrite (bind_exit _ _ _ _ _ Hrun). simpl. rewrite <- !app_assoc.
      eexists _, (rcs ++ cs), _. split; [reflexivity|].
      repeat split; auto.
      * rewrite length_app. unfold keys in Hl. rewrite length_map in Hl. lia.
      * apply Forall_app. auto.
Qed.

Lemma initial_calls_from ui available_ais history c :
  In c (initial_calls ui available_ais history) ->
  In (callee c, call_key c) available_ais.
Proof.
  revert history. induction available_ais as [|[a k] rest IH]; intros h; simpl;
    [tauto|]. intros [<-|Hin]; [now left | right; eauto].
Qed.

(** The rounds of a run that passed its checks, however they end. *)
Lemma rounds_any is_deep_mode ui available_ais w :
  NoDup (keys available_ais) -> available_ais <> [] ->
  (is_deep_mode = true -> 2 <= length available_ais) ->
  exists r rest ws,
    rounds is_deep_mode ui available_ais w
    = (r, mkWorld (calls w ++ initial_calls ui available_ais (calls w) ++ rest)
            (screen w ++ ws)) /\
    length rest <= (if is_deep_mode then 2 * length available_ais else 0) /\
    Forall (fun c => In (callee c) (keys available_ais) /\
                     call_key c = api_keys (callee c)) rest /\
    returns_or_TypeError r /\
    (is_deep_mode = false -> exists valid, r = Val valid).
Proof.
  intros Hnd Hne Hdeep. unfold rounds.
  set (cs := initial_calls ui available_ais (calls w)).
  destruct is_deep_mode; cbn [negb].
  - specialize (Hdeep eq_refl).
    rewrite deep_mode_run by assumption. fold cs.
    set (valid_initial := dict_filter valid_answer (map entry_of cs)).
    assert (Hkeys : keys (map entry_of cs) = keys available_ais)
      by (subst cs; now rewrite keys_entries, initial_calls_callee).
    assert (Hndvi : NoDup (keys valid_initial))
      by (apply NoDup_keys_filter; now rewrite Hkeys).
    assert (Hlen : length valid_initial <= length available_ais).
    { subst valid_initial. unfold dict_filter.
      etransitivity; [apply filter_length_le|].
      rewrite length_map. subst cs.
      rewrite <- (length_map callee), initial_calls_callee.
      unfold keys. now rewrite length_map. }
    destruct (cross_review_any valid_initial (deep_page ui available_ais w) Hndvi)
      as (r & rest & ws & Hrun & Hl & Hf & Hr).
    rewrite Hrun. unfold deep_page. fold cs. simpl.
    rewrite <- !app_assoc.
    eexists r, rest, _. split; [reflexivity|].
    repeat split; auto; [lia | | discriminate].
    eapply Forall_impl; [|exact Hf]. intros c [Hin Hk]. split; [|exact Hk].
    rewrite <- Hkeys. eapply keys_filter_incl, Hin.
  - destruct (plain_mode_run ui available_ais w Hnd Hne) as [ws Hp].
    fold cs in Hp. rewrite Hp.
    eexists _, [], ws. rewrite app_nil_r.
    repeat split; simpl; eauto.
Qed.

(** A run that passed its checks: round 1, then what [rest] lists. *)
Lemma run_any is_deep_mode ui available_ais w :
  NoDup (keys available_ais) ->
  ready is_deep_mode ui available_ais = true ->
  exists rest,
    calls (snd (run is_deep_mode ui available_ais w))
    = calls w ++ initial_calls ui available_ais (calls w) ++ rest /\
    length rest <= (if is_deep_mode then 2 * length available_ais + 1 else 1) /\
    Forall (fun c => In (callee c) (keys available_ais) /\
                     call_key c = api_keys (callee c)) rest /\
    (fst (run is_deep_mode ui available_ais w) = Finished \/
     fst (run is_deep_mode ui available_ais w) = Stopped \/
     (is_deep_mode = true /\
      fst (run is_deep_mode ui available_ais w) = Uncaught TypeError)).
Proof.
  intros Hnd Hready. unfold ready in Hready.
  apply andb_true_iff in Hready as [Hready Hdeep].
  apply andb_true_iff in Hready as [Hui Hav].
  assert (Hne : available_ais <> []) by (destruct available_ais; [discriminate | congruence]).
  assert (Hdeep' : is_deep_mode = true -> 2 <= length available_ais).
  { intros ->. cbn [negb orb] in Hdeep. apply Nat.leb_le in Hdeep.
    unfold keys in Hdeep. now rewrite length_map in Hdeep. }
  destruct (rounds_any is_deep_mode ui available_ais w Hnd Hne Hdeep')
    as (r & rest & ws & Hrun & Hl & Hf & Hr & _).
  unfold run. rewrite analyze_run by assumption.
  destruct r as [valid|e].
  - rewrite (bind_val _ _ _ _ _ Hrun).
    destruct valid as [|[s v] more] eqn:Hv.
    + rewrite synthesis_nothing_valid. simpl.
      exists rest. repeat split; auto.
      destruct is_deep_mode; lia.
    + rewrite <- Hv in *.
      pose proof (rounds_keys _ _ _ _ _ _ Hnd Hrun) as Hk.
      assert (Hs : In s (keys available_ais)).
      { assert (Hin : In s (keys valid)) by (rewrite Hv; now left).
        rewrite Hk in Hin. now apply filter_In in Hin. }
      rewrite (synthesis_run ui valid s v more _ Hv). simpl.
      eexists (rest ++ [_]). rewrite <- !app_assoc.
      split; [reflexivity|]. repeat split; auto.
      * rewrite length_app. simpl. destruct is_deep_mode; lia.
      * apply Forall_app. split; [exact Hf|]. constructor; [|constructor].
        simpl. auto.
  - rewrite (bind_exit _ _ _ _ _ Hrun). simpl in *. subst e.
    exists rest. repeat split; auto.
    + destruct is_deep_mode; lia.
    + destruct is_deep_mode; [auto|].
      destruct (rounds_any false ui available_ais w Hnd Hne ltac:(discriminate))
        as (r' & rest' & ws' & Hrun' & _ & _ & _ & Hval).
      destruct (Hval eq_refl) as [valid ->]. congruence.
Qed.

(** A run that fails a check stops before any call. *)
Lemma run_blocked is_deep_mode ui available_ais w :
  ready is_deep_mode ui available_ais = false ->
  fst (run is_deep_mode ui available_ais w) = Stopped /\
  calls (snd (run is_deep_mode ui available_ais w)) = calls w.
Proof.
  unfold ready, run. intros Hready.
  destruct (Py.nonempty (strip ui)) eqn:Hui;
    [|unfold analyze; rewrite Hui; split; reflexivity].
  destruct available_ais as [|item more] eqn:Hav;
    [unfold analyze; rewrite Hui; split; reflexivity|].
  rewrite <- Hav in *.
  assert (Hne : available_ais <> []) by congruence.
  assert (Hnl : Py.nonempty_list available_ais = true) by now rewrite Hav.
  rewrite Hnl in Hready. cbn [andb] in Hready.
  destruct is_deep_mode; [|discriminate]. cbn [negb orb] in Hready.
  apply Nat.leb_gt in Hready. unfold keys in Hready.
  rewrite length_map in Hready.
  rewrite analyze_run by assumption. unfold rounds. cbn [negb].
  rewrite (bind_exit _ _ _ _ _ (deep_mode_too_few ui available_ais w Hready)).
  split; reflexivity.
Qed.

(** X1: with the keys of [available_ais] distinct, a run ends in one of
    three ways: it runs to its last statement, it stops on [st.stop()], or,
    in the deep mode only, it dies of the [TypeError] of round 3.  No
    lookup in a dict or a list of the script ever fails. *)
Theorem run_ends_normally_or_on_TypeError is_deep_mode ui available_ais w :
  NoDup (keys available_ais) ->
  fst (run is_deep_mode ui available_ais w) = Finished \/
  fst (run is_deep_mode ui available_ais w) = Stopped \/
  (is_deep_mode = true /\
   fst (run is_deep_mode ui available_ais w) = Uncaught TypeError).
Proof.
  intros Hnd. destruct (ready is_deep_mode ui available_ais) eqn:Hready.
  - destruct (run_any is_deep_mode ui available_ais w Hnd Hready)
      as (rest & _ & _ & _ & Hend). exact Hend.
  - right. left. now apply run_blocked.
Qed.

(** X2: a run over n configured AIs makes at most n + 1 calls in the plain
    mode and at most 3 n + 1 calls in the deep mode. *)
Theorem run_call_budget is_deep_mode ui available_ais w :
  NoDup (keys available_ais) ->
  exists cs,
    calls (snd (run is_deep_mode ui available_ais w)) = calls w ++ cs /\
    length cs <= (if is_deep_mode then 3 * length available_ais + 1
                  else length available_ais + 1).
Proof.
  intros Hnd. destruct (ready is_deep_mode ui available_ais) eqn:Hready.
  - destruct (run_any is_deep_mode ui available_ais w Hnd Hready)
      as (rest & Hcalls & Hl & _).
    eexists. split; [exact Hcalls|].
    rewrite length_app, <- (length_map callee), initial_calls_callee.
    unfold keys. rewrite length_map. destruct is_deep_mode; lia.
  - exists []. rewrite app_nil_r. split; [now apply run_blocked | simpl; lia].
Qed.

(** X3: a run calls an AI exactly when it passes the three checks of the
    script.  When it does not, it stops with nothing called; when it does,
    it starts by calling every configured AI once, in the order of
    [available_ais], with the key stored there and the prompt of round 1. *)
Theorem run_calls_exactly_when_ready is_deep_mode ui available_ais w :
  NoDup (keys available_ais) ->
  (ready is_deep_mode ui available_ais = false ->
   fst (run is_deep_mode ui available_ais w) = Stopped /\
   calls (snd (run is_deep_mode ui available_ais w)) = calls w) /\
  (ready is_deep_mode ui available_ais = true ->
   exists first rest,
     calls (snd (run is_deep_mode ui available_ais w))
     = calls w ++ first ++ rest /\
     first <> [] /\
     map (fun c => (callee c, call_key c)) first = available_ais /\
     Forall (fun c => call_prompt c = initial_prompt ui) first).
Proof.
  intros Hnd. split; [apply run_blocked|]. intros Hready.
  destruct (run_any is_deep_mode ui available_ais w Hnd Hready)
    as (rest & Hcalls & _).
  exists (initial_calls ui available_ais (calls w)), rest.
  split; [exact Hcalls|]. repeat split.
  - unfold ready in Hready. destruct available_ais as [|[a k] more];
      [rewrite andb_false_r in Hready; discriminate | discriminate].
  - clear. generalize (calls w).
    induction available_ais as [|[a k] more IH]; intros h; simpl;
      [reflexivity | now rewrite IH].
  - apply Forall_forall. intros c. apply initial_calls_prompt.
Qed.

(** A filter on a shorter marker is the stricter one. *)
Lemma unmarked_by_prefix p n v :
  String.prefix p n = true -> unmarked p v = true -> unmarked n v = true.
Proof.
  intros Hp. rewrite !unmarked_iff.
  intros (s & -> & Hs & Hm). exists s. repeat split; auto.
  destruct (Py.str_in n s) eqn:E; [|reflexivity].
  rewrite <- Hm. symmetry. eapply str_in_needle_prefix; eassumption.
Qed.

(** X6: the filter after round 3 is the stricter of the two: what it keeps,
    the filter after round 1 keeps too. *)
Theorem valid_revision_is_valid_answer v :
  valid_revision v = true -> valid_answer v = true.
Proof. apply unmarked_by_prefix. reflexivity. Qed.

(** X5: whatever the mode, every answer that the rounds hand to the
    synthesis is a text, not empty, and free of the error marker
    [❌ 오류 발생]: no [None], no empty text and no error text of round 1
    reaches the prompt of the synthesis. *)
Theorem rounds_hand_on_valid_answers
    is_deep_mode ui available_ais w valid_responses w1 :
  NoDup (keys available_ais) ->
  rounds is_deep_mode ui available_ais w = (Val valid_responses, w1) ->
  Forall (fun kv => exists s, snd kv = Some s /\ s <> EmptyString /\
                              Py.str_in "❌ 오류 발생" s = false)
    valid_responses.
Proof.
  intros Hnd Hrun.
  pose proof (rounds_val_nonempty _ _ _ _ _ _ Hrun) as Hne.
  assert (Hfilter : forall d : dict AI (option string),
            Forall (fun kv => valid_answer (snd kv) = true)
              (dict_filter valid_answer d)).
  { intros d. apply Forall_forall. intros kv Hin.
    now apply filter_In in Hin. }
  apply Forall_forall. intros kv Hin.
  apply (unmarked_iff "❌ 오류 발생" (snd kv)). fold valid_answer.
  revert kv Hin. apply Forall_forall.
  destruct is_deep_mode; unfold rounds in Hrun; cbn [negb] in Hrun.
  - destruct (Nat.lt_ge_cases (length available_ais) 2) as [Hlt|Hge].
    { rewrite deep_mode_too_few in Hrun by assumption. discriminate. }
    rewrite deep_mode_run in Hrun by assumption.
    set (valid_initial := dict_filter valid_answer _) in Hrun.
    destruct (Nat.lt_ge_cases (length valid_initial) 2) as [Hlt|Hge2].
    + rewrite cross_review_degrades in Hrun by assumption.
      injection Hrun as <- _. apply Hfilter.
    + assert (Hndvi : NoDup (keys valid_initial)).
      { apply NoDup_keys_filter.
        now rewrite keys_entries, initial_calls_callee. }
      destruct (cross_review_val _ _ _ _ Hndvi Hge2 Hrun)
        as (reviews & rcs & steps & _ & _ & _ & _ & -> & _).
      apply Forall_forall. intros kv Hin. apply filter_In in Hin.
      apply (unmarked_by_prefix "❌"); [reflexivity | apply Hin].
  - destruct (plain_mode_run ui available_ais w Hnd Hne) as [ws Hp].
    rewrite Hp in Hrun. injection Hrun as <- _. apply Hfilter.
Qed.

Lemma revision_of_clean valid_initial reviews a step v :
  revision_of valid_initial reviews a step v ->
  review_is_clean reviews a
  = match step with Some _ => true | None => false end.
Proof.
  unfold review_is_clean.
  destruct 1 as [v0 _ Hrev|v0 r t _ Hrev Hm|v0 r t c v1 _ Hrev Hm
                |v0 r t c msg _ Hrev Hm]; now rewrite Hrev, ?Hm.
Qed.

Lemma revision_steps valid_initial reviews authors steps :
  Forall2 (fun a st => revision_of valid_initial reviews a (fst st) (snd st))
    authors steps ->
  map callee (calls_of (map fst steps))
  = filter (review_is_clean reviews) authors.
Proof.
  induction 1 as [|a [step v] authors steps Hstep _ IH]; [reflexivity|].
  cbn [fst snd] in Hstep. simpl.
  rewrite (revision_of_clean _ _ _ _ _ Hstep).
  destruct step as [c|]; simpl; [|exact IH].
  f_equal; [|exact IH]. now inversion Hstep.
Qed.

Lemma Forall2_combine_In {A B} (P : A -> B -> Prop) l l' a :
  Forall2 P l l' -> In a l -> exists b, In (a, b) (combine l l') /\ P a b.
Proof.
  induction 1 as [|x y l l' Hxy _ IH]; simpl; [tauto|].
  intros [->|Hin]; [eauto|].
  destruct (IH Hin) as (b & Hb & HP). eauto.
Qed.

Lemma combine_map_snd_In {A B C} (l : list A) (l' : list (B * C)) a st :
  In (a, st) (combine l l') -> In (a, snd st) (combine l (map snd l')).
Proof.
  revert l'. induction l as [|x l IH]; intros [|y l']; simpl; try tauto.
  intros [[= -> ->]|Hin]; [now left | right; now apply IH].
Qed.

(** X7: where round 3 returns, it has asked a revision of exactly the
    authors whose review is there and does not contain the sign [❌], once
    each and in the order of the authors.  Such an author gets what the call
    returned, or the initial answer when the call raised; every other
    author keeps the initial answer. *)
Theorem revision_calls_follow_clean_reviews
    valid_initial reviews w revised_responses w' :
  NoDup (keys valid_initial) ->
  revise_stage valid_initial reviews w = (Val revised_responses, w') ->
  exists cs,
    w' = mkWorld (calls w ++ cs) (screen w) /\
    map callee cs = filter (review_is_clean reviews) (keys valid_initial) /\
    keys revised_responses = keys valid_initial /\
    (forall a, In a (keys valid_initial) ->
       review_is_clean reviews a = false ->
       dict_get AI_eq_dec a revised_responses
       = dict_get AI_eq_dec a valid_initial) /\
    (forall c, In c cs ->
       dict_get AI_eq_dec (callee c) revised_responses
       = match outcome c with
         | Returned v => Some v
         | Raised _ => dict_get AI_eq_dec (callee c) valid_initial
         end).
Proof.
  intros Hnd Hrun.
  destruct (revise_stage_val _ _ _ _ _ Hnd Hrun) as (steps & Hf2 & -> & ->).
  assert (Hk : keys (combine (keys valid_initial) (map snd steps))
               = keys valid_initial) by (eapply keys_combine_steps, Hf2).
  exists (calls_of (map fst steps)).
  split; [reflexivity|].
  split; [eapply revision_steps, Hf2|]. split; [exact Hk|]. split.
  - intros a Ha Hclean.
    destruct (Forall2_combine_In _ _ _ a Hf2 Ha) as (st & Hin & Hstep).
    rewrite (revision_of_clean _ _ _ _ _ Hstep) in Hclean.
    destruct st as [[c|] v]; [discriminate|]. cbn [fst snd] in Hstep.
    rewrite (dict_get_In AI_eq_dec a v);
      [| now rewrite Hk | now apply combine_map_snd_In in Hin].
    inversion Hstep; subst; congruence.
  - intros c Hc.
    destruct (calls_of_steps _ _ _ Hf2 Hc) as (a & v & Hin & Hstep).
    assert (Hcal : callee c = a) by now inversion Hstep.
    rewrite Hcal, (dict_get_In AI_eq_dec a v) by (auto; now rewrite Hk).
    inversion Hstep as [| |v0 r t c0 v1 Hv0 _ _ _ _ _ Ho
                        |v0 r t c0 msg Hv0 _ _ _ _ _ Ho]; subst;
      rewrite Ho; congruence.
Qed.

(** X8: from two valid initial answers on, rounds 2 and 3 end in the
    uncaught [TypeError] exactly when one of the review calls returned
    [None].  When none did, they return: round 3 has stored one entry per
    author, in the order of the authors, each as [revision_of] describes
    it, the calls made are the review calls and then the revision calls,
    and the result is what the filter on the sign [❌] keeps of those
    entries. *)
Theorem cross_review_raises_exactly_on_None_review valid_initial w :
  NoDup (keys valid_initial) -> 2 <= length valid_initial ->
  exists reviews review_calls,
    review_stage valid_initial
      (mkWorld (calls w)
         (screen w ++ [Markdown (Some "#### 2단계: 상호 검토 (논리적 오류·빠진 데이터 지적)")]))
    = (Val reviews,
       mkWorld (calls w ++ review_calls)
         (screen w ++ [Markdown (Some "#### 2단계: 상호 검토 (논리적 오류·빠진 데이터 지적)")])) /\
    ((exists c, In c review_calls /\ outcome c = Returned None) ->
     exists w', cross_review valid_initial w
                = (Exit (Uncaught TypeError), w')) /\
    ((forall c, In c review_calls -> outcome c <> Returned None) ->
     exists steps w',
       let revised_responses := combine (keys valid_initial) (map snd steps) in
       Forall2 (fun a st => revision_of valid_initial reviews a (fst st) (snd st))
         (keys valid_initial) steps /\
       keys revised_responses = keys valid_initial /\
       cross_review valid_initial w
       = (Val (dict_filter valid_revision revised_responses), w') /\
       calls w' = calls w ++ review_calls ++ calls_of (map fst steps)).
Proof.
  intros Hnd Hlen.
  set (w0 := mkWorld (calls w) _).
  destruct (review_stage_run valid_initial w0 Hnd Hlen)
    as (rcs & Hrev & Hrl & _).
  set (reviews := map review_entry (combine (keys valid_initial) rcs)) in *.
  exists reviews, rcs. split; [exact Hrev|]. split.
  - intros (c & Hc & Hnone).
    apply cross_review_raises_on_None_review; try assumption.
    exists reviews, (mkWorld (calls w0 ++ rcs) (screen w0)), c.
    split; [exact Hrev|]. split; [|exact Hnone].
    simpl. now rewrite skipn_app, skipn_all, Nat.sub_diag.
  - intros Hall.
    assert (Hsome : forall a r, In a (keys valid_initial) ->
              dict_get AI_eq_dec a reviews <> Some (r, None)).
    { intros a r _ Hget. apply dict_get_Some_In in Hget.
      apply in_map_iff in Hget as ([a' c] & Heq & Hin).
      apply in_combine_r in Hin. apply (Hall c Hin).
      unfold review_entry in Heq. simpl in Heq.
      destruct (outcome c) as [[t|]|msg]; simpl in Heq;
        [congruence | reflexivity | congruence]. }
    unfold cross_review. apply Nat.ltb_ge in Hlen as Hltb. rewrite Hltb.
    erewrite bind_val by reflexivity. fold w0.
    rewrite (bind_val _ _ _ _ _ Hrev).
    destruct (show_reviews_run reviews (mkWorld (calls w0 ++ rcs) (screen w0)))
      as [ws Hshow].
    rewrite (bind_val _ _ _ _ _ Hshow).
    erewrite bind_val by reflexivity.
    match goal with
    | |- context [bind (revise_stage ?vi ?rv) _ ?wx] =>
        destruct (revise_loop_returns vi rv (keys vi) [] wx ltac:(auto) Hsome)
          as (revised & w2 & Hrun)
    end.
    apply revise_stage_val in Hrun as Hsteps; [|exact Hnd].
    destruct Hsteps as (steps & Hf2 & -> & ->).
    unfold revise_stage. rewrite (bind_val _ _ _ _ _ Hrun).
    rewrite (bind_val _ _ _ _ _ (show_answers_run _ _ _ _)).
    eexists steps, _. cbv zeta.
    split; [exact Hf2|]. split; [eapply keys_combine_steps, Hf2|].
    split; [reflexivity|].
    simpl. now rewrite <- app_assoc.
Qed.

(** X9: the prompt of the synthesis carries the input of the user and, for
    every valid answer, the name of its AI and its text. *)
Theorem consensus_prompt_embeds ui valid_responses :
  Py.str_in ui (consensus_prompt ui valid_responses) = true /\
  forall ai_id resp, In (ai_id, resp) valid_responses ->
    Py.str_in (config_name ai_id) (consensus_prompt ui valid_responses) = true /\
    Py.str_in (Py.fmt resp) (consensus_prompt ui valid_responses) = true.
Proof.
  unfold consensus_prompt. split.
  - apply str_in_lines with (l := ui); [simpl; tauto | apply str_in_refl].
  - intros a v Hin.
    assert (Hpart : forall n,
              Py.str_in n ("**【" ++ config_name a ++ "】의 답변:**" ++ Py.nl
                           ++ Py.fmt v)%string = true ->
              Py.str_in n (response_texts valid_responses) = true).
    { intros n Hn. unfold response_texts, Py.join.
      eapply str_in_concat; [|exact Hn].
      apply in_map_iff. exists (a, v). auto. }
    split; apply str_in_lines with (l := response_texts valid_responses);
      try (simpl; tauto); apply Hpart.
    + apply str_in_app_r, str_in_app_l, str_in_refl.
    + do 4 apply str_in_app_r. apply str_in_refl.
Qed.

Lemma review_loop_prompts valid_initial reviewer_ids :
  NoDup reviewer_ids -> 2 <= length reviewer_ids ->
  (forall a, In a reviewer_ids -> In a (keys valid_initial)) ->
  forall suffix prefix acc w,
    reviewer_ids = prefix ++ suffix -> keys acc = prefix ->
    exists cs,
      snd (for_each (review_body valid_initial reviewer_ids)
             (combine (seq (length prefix) (length suffix)) suffix) acc w)
      = mkWorld (calls w ++ cs) (screen w) /\
      Forall2 (fun a c => exists v0,
                 dict_get AI_eq_dec a valid_initial = Some v0 /\
                 call_prompt c = review_prompt a v0) suffix cs.
Proof.
  intros Hnd Hlen Hin.
  induction suffix as [|a rest IH]; intros prefix acc w Hids Hacc.
  - exists []. simpl. rewrite app_nil_r. destruct w. auto.
  - set (i := length prefix).
    assert (Hi : i < length reviewer_ids)
      by (rewrite Hids, length_app; simpl; lia).
    assert (Ha : nth_error reviewer_ids i = Some a)
      by (rewrite Hids, nth_error_app2, Nat.sub_diag by lia; reflexivity).
    assert (Hlt : (i + 1) mod length reviewer_ids < length reviewer_ids)
      by (apply Nat.mod_upper_bound; lia).
    destruct (nth_error reviewer_ids ((i + 1) mod length reviewer_ids))
      as [r|] eqn:Hr; [|apply nth_error_None in Hr; lia].
    assert (Hne : a <> r).
    { intros ->. rewrite <- Ha in Hr.
      apply (proj1 (NoDup_nth_error reviewer_ids) Hnd) in Hr; [|exact Hlt].
      revert Hr. apply next_index_differs; assumption. }
    destruct (dict_get_In_keys AI_eq_dec a valid_initial) as [v0 Hv0].
    { apply Hin. rewrite Hids. apply in_or_app. right. now left. }
    assert (Hfresh : ~ In a (keys acc)).
    { rewrite Hacc. rewrite Hids in Hnd. apply NoDup_remove_2 in Hnd.
      intros Hp. apply Hnd, in_or_app. now left. }
    pose proof (review_body_step valid_initial reviewer_ids acc i a r v0 w
                  Hr Hne Hv0 Hfresh) as Hstep.
    cbv zeta in Hstep.
    set (c := mkCall r (api_keys r) (review_prompt a v0)
                (vendor (calls w) r (api_keys r) (review_prompt a v0))) in *.
    destruct (IH (prefix ++ [a]) (acc ++ [review_entry (a, c)])
                (mkWorld (calls w ++ [c]) (screen w)))
      as (cs & Hrun & Hf2).
    { now rewrite <- app_assoc. }
    { rewrite keys_app, Hacc. reflexivity. }
    rewrite length_app in Hrun. simpl in Hrun.
    replace (length prefix + 1) with (S i) in Hrun by (subst i; lia).
    exists (c :: cs).
    cbn [length seq combine for_each]. fold i.
    rewrite (bind_val _ _ _ _ _ Hstep), Hrun.
    rewrite <- !app_assoc. split; [reflexivity|].
    constructor; [|exact Hf2]. exists v0. auto.
Qed.

(** X10: in round 2 the answer of every author goes out for review: the
    i-th call of the round is made with the review prompt built from the
    i-th valid answer and the name of its author, and that prompt contains
    the answer. *)
Theorem review_calls_carry_the_answers valid_initial w :
  NoDup (keys valid_initial) -> 2 <= length valid_initial ->
  exists review_calls,
    snd (review_stage valid_initial w)
    = mkWorld (calls w ++ review_calls) (screen w) /\
    Forall2 (fun entry c =>
               call_prompt c = review_prompt (fst entry) (snd entry) /\
               Py.str_in (Py.fmt (snd entry)) (call_prompt c) = true)
      valid_initial review_calls.
Proof.
  intros Hnd Hlen.
  assert (Hk : length (keys valid_initial) = length valid_initial)
    by apply length_map.
  destruct (review_loop_prompts valid_initial (keys valid_initial) Hnd
              ltac:(lia) ltac:(auto) (keys valid_initial) [] [] w
              eq_refl eq_refl) as (cs & Hrun & Hf2).
  exists cs. split; [exact Hrun|].
  assert (Hall : forall entry, In entry valid_initial ->
            dict_get AI_eq_dec (fst entry) valid_initial = Some (snd entry)).
  { intros [a v] Hin. now apply dict_get_In. }
  assert (Hgen : forall (d : dict AI (option string)) (cs0 : list (Call AI)),
            (forall entry, In entry d ->
               dict_get AI_eq_dec (fst entry) valid_initial = Some (snd entry)) ->
            Forall2 (fun a c => exists v0,
                       dict_get AI_eq_dec a valid_initial = Some v0 /\
                       call_prompt c = review_prompt a v0) (keys d) cs0 ->
            Forall2 (fun entry c =>
                       call_prompt c = review_prompt (fst entry) (snd entry) /\
                       Py.str_in (Py.fmt (snd entry)) (call_prompt c) = true)
              d cs0).
  { induction d as [|[a v] d IH]; intros cs0 Hd Hf;
      inversion Hf as [|? c ? cs' (v0 & Hv0 & Hp) Hrest]; subst;
      constructor.
    - pose proof (Hd (a, v) (or_introl eq_refl)) as Hav. simpl in Hav, Hv0.
      rewrite Hav in Hv0. injection Hv0 as <-.
      simpl. split; [exact Hp|]. rewrite Hp.
      unfold review_prompt.
      apply str_in_lines with (l := Py.fmt v);
        [simpl; tauto | apply str_in_refl].
    - apply IH; [|exact Hrest]. intros entry Hin. apply Hd. now right. }
  apply Hgen; assumption.
Qed.

End Accounting.

(** ** The script and the page of [app.py] *)

Module PageFacts.
Import App Page.

(** An entry of [available_ais] is an AI of [AI_CONFIG] with the key typed
    for it, and that key is not blank. *)
Lemma available_ais_In strip text_input a k :
  In (a, k) (available_ais strip text_input) ->
  k = text_input a /\
  Py.nonempty (text_input a) && Py.nonempty (strip (text_input a)) = true.
Proof.
  unfold available_ais, dict_filter, collect_api_keys.
  intros Hin. apply filter_In in Hin as [Hin Hk]. simpl in Hk.
  apply in_map_iff in Hin as (a' & [= <- <-] & _). auto.
Qed.

(** X4: whatever is typed, chosen and answered, the script only ever calls
    an AI whose key is entered and not blank, and it calls it with that
    key: no vendor is sent the key of another. *)
Theorem script_calls_only_keyed_ais
    strip text_input vendor is_deep_mode ui
    (w : World (D := deployment strip text_input vendor)) :
  exists cs,
    calls (snd (script strip text_input vendor is_deep_mode ui w))
    = calls w ++ cs /\
    Forall (fun c =>
              Py.nonempty (text_input (callee c))
              && Py.nonempty (strip (text_input (callee c))) = true /\
              call_key c = text_input (callee c)) cs.
Proof.
  unfold script.
  set (D := deployment strip text_input vendor) in *.
  set (av := available_ais strip text_input).
  assert (Hnd : NoDup (keys av)) by apply Runs.available_ais_NoDup.
  destruct (ready (D := D) is_deep_mode ui av) eqn:Hready.
  - destruct (run_any (D := D) is_deep_mode ui av w Hnd Hready)
      as (rest & Hcalls & _ & Hf & _).
    eexists. split; [exact Hcalls|].
    apply Forall_app. split; apply Forall_forall; intros c Hc.
    + apply initial_calls_from in Hc.
      destruct (available_ais_In _ _ _ _ Hc) as [Hk Hb]. auto.
    + rewrite Forall_forall in Hf. destruct (Hf c Hc) as [Hin Hk].
      split; [|exact Hk].
      apply in_map_iff in Hin as ([a k] & Ha & Hin). simpl in Ha. subst a.
      now destruct (available_ais_In _ _ _ _ Hin).
  - exists []. rewrite app_nil_r.
    split; [now apply (run_blocked (D := D)) | constructor].
Qed.

Section Upload.
Context {Block : Type}.
Variable block_text : Block -> string.
Variable strip : string -> string.

(** X11: a PDF that cannot be read counts as no PDF: the error text of
    [extract_text_from_pdf] is never what is analysed, and the typed text
    is used in its place. *)
Theorem unreadable_pdf_counts_as_no_pdf PDF_AVAILABLE msg user_text :
  content_to_analyze strip
    (extracted_text block_text strip PDF_AVAILABLE (Some (Unreadable msg)))
    user_text
  = content_to_analyze strip
      (extracted_text block_text strip PDF_AVAILABLE None) user_text
  /\
  content_to_analyze strip
    (extracted_text block_text strip PDF_AVAILABLE (Some (Unreadable msg)))
    user_text
  = (if Py.nonempty (strip user_text) then strip user_text else EmptyString).
Proof. destruct PDF_AVAILABLE; split; reflexivity. Qed.

Lemma text_parts_In pages part :
  In part (text_parts block_text strip pages) <->
  exists blocks block,
    In blocks pages /\ In block blocks /\
    Py.nonempty (strip (block_text block)) = true /\
    part = strip (block_text block).
Proof.
  unfold text_parts. rewrite in_flat_map. split.
  - intros (blocks & Hb & Hin). apply in_flat_map in Hin as (b & Hb' & Hin).
    destruct (Py.nonempty (strip (block_text b))) eqn:E; [|destruct Hin].
    destruct Hin as [<-|[]]. eauto 6.
  - intros (blocks & b & Hb & Hb' & Hne & ->).
    exists blocks. split; [exact Hb|]. apply in_flat_map.
    exists b. split; [exact Hb'|]. rewrite Hne. now left.
Qed.

(** X12: the text of a readable PDF is empty exactly when every block of
    every page is blank. *)
Theorem extraction_is_empty_iff_all_blank pages :
  extract_text_from_pdf block_text strip (Pages pages) = EmptyString <->
  forall blocks block,
    In blocks pages -> In block blocks ->
    Py.nonempty (strip (block_text block)) = false.
Proof.
  unfold extract_text_from_pdf.
  set (parts := text_parts block_text strip pages).
  assert (Hall : Forall (fun part => part <> EmptyString) parts).
  { apply Forall_forall. intros part Hin.
    apply text_parts_In in Hin as (blocks & b & _ & _ & Hne & ->).
    intros E. rewrite E in Hne. discriminate. }
  split.
  - intros Hempty blocks b Hb Hb'.
    assert (Hnil : parts = []).
    { destruct parts eqn:Hp; [reflexivity|]. rewrite <- Hp in *.
      destruct parts; [discriminate|].
      now apply concat_nonempty_parts in Hempty. }
    destruct (Py.nonempty (strip (block_text b))) eqn:E; [|reflexivity].
    assert (Hin : In (strip (block_text b)) parts)
      by (apply text_parts_In; eauto 6).
    rewrite Hnil in Hin. destruct Hin.
  - intros Hblank. destruct parts as [|part more] eqn:Hp; [reflexivity|].
    assert (Hin : In part parts) by (rewrite Hp; now left).
    apply text_parts_In in Hin as (blocks & b & Hb & Hb' & Hne & _).
    rewrite (Hblank blocks b Hb Hb') in Hne. discriminate.
Qed.

(** X13: no block is lost: the stripped text of every block that is not
    blank is part of the text of the PDF. *)
Theorem extraction_keeps_every_block pages blocks block :
  In blocks pages -> In block blocks ->
  Py.nonempty (strip (block_text block)) = true ->
  Py.str_in (strip (block_text block))
    (extract_text_from_pdf block_text strip (Pages pages)) = true.
Proof.
  intros Hb Hb' Hne. unfold extract_text_from_pdf.
  assert (Hin : In (strip (block_text block))
                  (text_parts block_text strip pages))
    by (apply text_parts_In; eauto 6).
  destruct (text_parts block_text strip pages) as [|part more] eqn:Hp;
    [destruct Hin|].
  simpl Py.nonempty_list. cbv iota. unfold Py.join.
  eapply str_in_concat; [exact Hin | apply str_in_refl].
Qed.

End Upload.

Lemma str_in_empty h : Py.str_in EmptyString h = true.
Proof. destruct h; reflexivity. Qed.

(** The first check of the script, in terms of the page: the input is
    blank exactly when there is no content and the question is blank. *)
Lemma user_input_is_blank_iff user_question content :
  Py.nonempty (Page.str_strip (user_input Page.str_strip user_question content))
  = Py.nonempty content || Py.nonempty (Page.str_strip user_question).
Proof.
  unfold user_input. destruct (Py.nonempty content); [reflexivity|].
  simpl. destruct (Py.nonempty (Page.str_strip user_question)) eqn:E;
    [exact E | reflexivity].
Qed.

Lemma user_input_carries user_question content :
  Py.nonempty (Page.str_strip (user_input Page.str_strip user_question content)) = true ->
  Py.str_in user_question (user_input Page.str_strip user_question content) = true /\
  Py.str_in content (user_input Page.str_strip user_question content) = true.
Proof.
  unfold user_input. destruct (Py.nonempty content) eqn:Hc.
  - intros _. split.
    + apply str_in_lines with (l := user_question);
        [simpl; tauto | apply str_in_refl].
    + apply str_in_lines with (l := content);
        [simpl; tauto | apply str_in_refl].
  - destruct content; [|discriminate].
    destruct (Py.nonempty (Page.str_strip user_question)); [|discriminate].
    intros _. split; [apply str_in_refl | apply str_in_empty].
Qed.

Lemma ready_false_iff {A} (b deep : bool) (l : list A) :
  b && Py.nonempty_list l && (negb deep || Nat.leb 2 (length l)) = false <->
  b = false \/ l = [] \/ (deep = true /\ length l < 2).
Proof.
  destruct b, deep, l as [|x [|y l]]; simpl; split; intros H;
    try discriminate; auto;
    try (right; right; split; [reflexivity | lia]);
    destruct H as [H|[H|[H1 H2]]]; try discriminate; try lia.
Qed.

Section Press.
Context {Block : Type}.
Variable block_text : Block -> string.
Variable text_input : ai_id -> string.
Variable vendor : list (Call ai_id) -> ai_id -> string -> string -> Outcome.
Variable analysis_mode : string.
Variable PDF_AVAILABLE : bool.
Variable pdf_file : option (Pdf Block).
Variable user_question user_text : string.

Let D : Deployment := deployment Page.str_strip text_input vendor.
Let content : string :=
  content_to_analyze Page.str_strip
    (extracted_text block_text Page.str_strip PDF_AVAILABLE pdf_file) user_text.
Let av : dict ai_id string := available_ais Page.str_strip text_input.

(** X14: a press of the button calls nobody exactly when there is nothing
    to analyse (no content and a blank question), or no API key is
    entered, or the deep mode is chosen with fewer than two keys. *)
Theorem press_calls_nobody_iff (w : World (D := D)) :
  calls (snd (press block_text Page.str_strip text_input vendor analysis_mode
                PDF_AVAILABLE pdf_file user_question user_text w))
  = calls w <->
  Py.nonempty content || Py.nonempty (Page.str_strip user_question) = false \/
  av = [] \/
  (is_deep_mode analysis_mode = true /\ length av < 2).
Proof.
  unfold press, script. fold content. fold av. fold D.
  set (ui := user_input Page.str_strip user_question content).
  assert (Hnd : NoDup (keys av)) by apply Runs.available_ais_NoDup.
  assert (Hready : ready (D := D) (is_deep_mode analysis_mode) ui av = false <->
                   Py.nonempty content || Py.nonempty (Page.str_strip user_question)
                   = false \/
                   av = [] \/
                   (is_deep_mode analysis_mode = true /\ length av < 2)).
  { unfold ready. change (@strip D) with Page.str_strip.
    subst ui. rewrite user_input_is_blank_iff.
    unfold keys. rewrite length_map. apply ready_false_iff. }
  rewrite <- Hready. split.
  - intros Hcalls.
    destruct (ready (D := D) (is_deep_mode analysis_mode) ui av) eqn:E;
      [|reflexivity].
    exfalso.
    destruct (run_any (D := D) (is_deep_mode analysis_mode) ui av w Hnd E)
      as (rest & Hc & _).
    rewrite Hc in Hcalls.
    assert (Hx : calls w ++ initial_calls (D := D) ui av (calls w) ++ rest
                 = calls w ++ []) by (rewrite app_nil_r; exact Hcalls).
    apply app_inv_head in Hx.
    unfold ready in E. destruct av as [|[a k] more];
      [rewrite andb_false_r in E; discriminate | discriminate].
  - intros E. now apply (run_blocked (D := D)).
Qed.

(** X15: when a press of the button passes the checks, round 1 asks every
    AI whose key is entered, in the order of [AI_CONFIG], and the prompt
    of each of these calls contains the question as typed and the content
    that is analysed. *)
Theorem press_round1_prompts_carry_the_input (w : World (D := D)) :
  ready (D := D) (is_deep_mode analysis_mode)
    (user_input Page.str_strip user_question content) av = true ->
  exists first rest,
    calls (snd (press block_text Page.str_strip text_input vendor analysis_mode
                  PDF_AVAILABLE pdf_file user_question user_text w))
    = calls w ++ first ++ rest /\
    map callee first = keys av /\
    Forall (fun c =>
              Py.str_in user_question (call_prompt c) = true /\
              Py.str_in content (call_prompt c) = true) first.
Proof.
  intros Hready. unfold press, script. fold content. fold av. fold D.
  set (ui := user_input Page.str_strip user_question content) in *.
  assert (Hnd : NoDup (keys av)) by apply Runs.available_ais_NoDup.
  destruct (run_any (D := D) (is_deep_mode analysis_mode) ui av w Hnd Hready)
    as (rest & Hc & _).
  exists (initial_calls (D := D) ui av (calls w)), rest.
  split; [exact Hc|].
  split; [exact (initial_calls_callee (D := D) ui av (calls w))|].
  assert (Hui : Py.nonempty (Page.str_strip ui) = true).
  { unfold ready in Hready. change (@strip D) with Page.str_strip in Hready.
    now destruct (Py.nonempty (Page.str_strip ui)). }
  destruct (user_input_carries user_question content Hui) as [Hq Hcontent].
  apply Forall_forall. intros c Hin.
  rewrite (initial_calls_prompt _ _ _ _ Hin). unfold initial_prompt.
  split; apply str_in_lines with (l := ui); simpl; auto.
Qed.

End Press.

End PageFacts.

(** ** Runs for the properties above *)

Module MoreRuns.
Import App Page.

Ltac nodup := vm_compute; repeat constructor; simpl; intuition discriminate.

Lemma run_ending_witness :
  NoDup (keys two_ais) /\
  (fst (run (D := two review_is_None) true "질문" two_ais (blank _)) = Finished \/
   fst (run (D := two review_is_None) true "질문" two_ais (blank _)) = Stopped \/
   (true = true /\
    fst (run (D := two review_is_None) true "질문" two_ais (blank _))
    = Uncaught TypeError)).
Proof.
  assert (H : NoDup (keys two_ais)) by nodup.
  split; [exact H|].
  exact (run_ends_normally_or_on_TypeError (D := two review_is_None) true
           "질문" two_ais (blank _) H).
Defined.

Lemma run_call_budget_witness :
  NoDup (keys two_ais) /\
  exists cs,
    calls (snd (run (D := two all_answer) true "질문" two_ais (blank _)))
    = [] ++ cs /\
    length cs <= 7.
Proof.
  assert (H : NoDup (keys two_ais)) by nodup.
  split; [exact H|].
  exact (run_call_budget (D := two all_answer) true "질문" two_ais (blank _) H).
Defined.

(** The deep mode over two AIs that always answer uses its whole budget. *)
Example deep_mode_of_two_uses_seven_calls :
  length (calls (snd (run (D := two all_answer) true "질문" two_ais (blank _))))
  = 7.
Proof. vm_compute. reflexivity. Qed.

Lemma run_calls_exactly_when_ready_witness :
  NoDup (keys one_ai) /\
  ready (D := two all_answer) true "질문" one_ai = false /\
  calls (snd (run (D := two all_answer) true "질문" one_ai (blank _))) = [].
Proof.
  assert (H : NoDup (keys one_ai)) by nodup.
  split; [exact H|]. split; [reflexivity|].
  apply (run_calls_exactly_when_ready (D := two all_answer) true "질문" one_ai
           (blank _) H).
  reflexivity.
Defined.

Lemma valid_revision_is_valid_answer_witness :
  valid_revision (Some "답변") = true /\ valid_answer (Some "답변") = true.
Proof.
  split; [reflexivity|].
  apply valid_revision_is_valid_answer. reflexivity.
Defined.

Lemma rounds_hand_on_valid_answers_witness :
  Forall (fun kv : ai_id * option string =>
            exists s, snd kv = Some s /\ s <> EmptyString /\
                      Py.str_in "❌ 오류 발생" s = false)
    [(claude, Some "핵심 기여는 세 가지입니다.")].
Proof.
  apply (rounds_hand_on_valid_answers (D := mixed) false "질문" four_ais
           (blank mixed) _
           (snd (rounds (D := mixed) false "질문" four_ais (blank mixed)))).
  - nodup.
  - vm_compute. reflexivity.
Defined.

Lemma revision_calls_follow_clean_reviews_witness :
  exists cs,
    snd (revise_stage (D := two all_answer)
           [(openai, Some "초기 A"); (gemini, Some "초기 B")]
           [(openai, (gemini, Some "❌ 검토 오류: timeout"));
            (gemini, (openai, Some "근거가 부족합니다."))]
           (blank _))
    = mkWorld ([] ++ cs) [] /\
    map callee cs = [gemini].
Proof.
  destruct (revision_calls_follow_clean_reviews (D := two all_answer)
              [(openai, Some "초기 A"); (gemini, Some "초기 B")]
              [(openai, (gemini, Some "❌ 검토 오류: timeout"));
               (gemini, (openai, Some "근거가 부족합니다."))]
              (blank _)
              [(openai, Some "초기 A"); (gemini, Some "답변")]
              (snd (revise_stage (D := two all_answer)
                      [(openai, Some "초기 A"); (gemini, Some "초기 B")]
                      [(openai, (gemini, Some "❌ 검토 오류: timeout"));
                       (gemini, (openai, Some "근거가 부족합니다."))]
                      (blank _))))
    as (cs & Hw & Hcs & _).
  - nodup.
  - vm_compute. reflexivity.
  - exists cs. split; [exact Hw | exact Hcs].
Defined.

Lemma cross_review_raises_exactly_witness :
  NoDup (keys five_answers) /\ 2 <= length five_answers /\
  exists steps w',
    cross_review (D := five) five_answers (blank five)
    = (Val (dict_filter valid_revision
              (combine (keys five_answers) (map snd steps))), w') /\
    keys (combine (keys five_answers) (map snd steps)) = [0; 1; 2; 3; 4] /\
    length (calls w') = 5 + length (calls_of (D := five) (map fst steps)).
Proof.
  assert (H1 : NoDup (keys five_answers)) by nodup.
  assert (H2 : 2 <= length five_answers) by (simpl; lia).
  split; [exact H1 | split; [exact H2|]].
  destruct (cross_review_raises_exactly_on_None_review (D := five)
              five_answers (blank five) H1 H2)
    as (reviews & rcs & Hrev & _ & Hval).
  injection Hrev as _ Hcalls. simpl in Hcalls. subst rcs.
  destruct Hval as (steps & w' & _ & Hk & Hrun & Hcs).
  - intros c Hc. vm_compute in Hc.
    repeat (destruct Hc as [<-|Hc]; [discriminate|]). destruct Hc.
  - exists steps, w'. split; [exact Hrun|]. split; [exact Hk|].
    rewrite Hcs, !length_app. reflexivity.
Defined.

Lemma review_calls_carry_the_answers_witness :
  NoDup (keys five_answers) /\ 2 <= length five_answers /\
  exists review_calls,
    snd (review_stage (D := five) five_answers (blank five))
    = mkWorld ([] ++ review_calls) [] /\
    length review_calls = 5.
Proof.
  assert (H1 : NoDup (keys five_answers)) by nodup.
  assert (H2 : 2 <= length five_answers) by (simpl; lia).
  split; [exact H1 | split; [exact H2|]].
  destruct (review_calls_carry_the_answers (D := five) five_answers
              (blank five) H1 H2) as (rcs & Hrun & Hf2).
  exists rcs. split; [exact Hrun|].
  apply Forall2_length in Hf2. now rewrite <- Hf2.
Defined.

Lemma extraction_keeps_every_block_witness :
  Py.str_in "본문 둘째 단락"
    (extract_text_from_pdf (fun block : string => block) str_strip
       (Pages [["  제목  "; "   "]; [" 본문 둘째 단락 "]])) = true.
Proof.
  apply (PageFacts.extraction_keeps_every_block (fun block : string => block)
           str_strip [["  제목  "; "   "]; [" 본문 둘째 단락 "]]
           [" 본문 둘째 단락 "] " 본문 둘째 단락 ").
  - right. left. reflexivity.
  - left. reflexivity.
  - reflexivity.
Defined.

(** The radio button: the first option is the plain mode, the second the
    deep mode. *)
Example the_two_analysis_modes :
  map is_deep_mode analysis_modes = [false; true].
Proof. vm_compute. reflexivity. Qed.

Lemma press_round1_witness :
  exists first rest,
    calls (snd (press (fun block : string => block) str_strip two_keys
                  (scripted all_answer) "일반 모드 (단순 종합)" true
                  (Some (Pages [[" 본문 "]])) "요약해 주세요" EmptyString
                  (blank _)))
    = [] ++ first ++ rest /\
    map callee first = [openai; gemini].
Proof.
  destruct (PageFacts.press_round1_prompts_carry_the_input
              (fun block : string => block) two_keys (scripted all_answer)
              "일반 모드 (단순 종합)" true (Some (Pages [[" 본문 "]]))
              "요약해 주세요" EmptyString (blank _))
    as (first & rest & Hc & Hk & _).
  - vm_compute. reflexivity.
  - exists first, rest. split; [exact Hc | exact Hk].
Defined.

End MoreRuns.
